(** * Canvas pass-through gateway: the Upstream Gateway and the
      Missing-Work Aggregator of [main.py]

    The development embeds [canvas_request] (the Gateway) and
    [get_missing_assignments] (the Aggregator) together with the small
    fragment of Python's dynamic semantics that the two functions rely on:
    subscripting, [in], [dict.get], truthiness, iteration, [try]/[except]
    and exception propagation.

    The HTTP library ([requests]) is not part of the repository.  It is
    represented by an arbitrary oracle [upstream] that answers every request
    from the history of the requests issued so far, and by the documented
    behaviour of [Response.raise_for_status] and [Response.json]. *)

From Stdlib Require Import String Ascii List ZArith Bool Lia DecimalString.
From Stdlib Require DecimalZ.
Import ListNotations.
Local Open Scope Z_scope.
Local Open Scope list_scope.
Local Open Scope string_scope.

(** ** Python values

    Every value that flows through the two functions is either decoded JSON
    or built from decoded JSON, so one type of values is enough.  A float is
    identified by its [repr] text (the shortest text that reads back as the
    same float), which is all the code can observe of it. *)

#[warnings="-register-all"]
Inductive json : Type :=
| JNull
| JBool (b : bool)
| JInt (z : Z)
| JFloat (repr : string)
| JStr (s : string)
| JList (l : list json)
| JObj (kv : list (string * json)).

(** Exceptions.  [requests_exc] lists the subclasses of
    [requests.exceptions.RequestException] that matter here. *)

Inductive requests_exc : Type :=
| ConnectionError
| Timeout
| HTTPError
| JSONDecodeError
| OtherRequestException.

Inductive exn : Type :=
| RequestException (k : requests_exc) (msg : string)
| KeyError (key : string)
| TypeError
| AttributeError
| UnboundLocalError.

Inductive result (A : Type) : Type :=
| Return (a : A)
| Raise (e : exn).

Arguments Return {A} a.
Arguments Raise {A} e.

Definition is_RequestException (e : exn) : bool :=
  match e with
  | RequestException _ _ => true
  | _ => false
  end.

(** ** Pure fragment: an error monad

    A dict is the list of its items in insertion order; [dict_lookup] reads
    the first item with the key, and a Python dict has one at most. *)

Module Py.

Definition bind {A B} (r : result A) (k : A -> result B) : result B :=
  match r with
  | Return a => k a
  | Raise e => Raise e
  end.

Fixpoint dict_lookup (key : string) (kv : list (string * json)) : option json :=
  match kv with
  | [] => None
  | (k, v) :: rest => if String.eqb key k then Some v else dict_lookup key rest
  end.

(** [needle in hay] on two strings. *)
Fixpoint substring_of (needle hay : string) : bool :=
  String.prefix needle hay ||
  match hay with
  | EmptyString => false
  | String _ hay' => substring_of needle hay'
  end.

Definition is_str (s : string) (v : json) : bool :=
  match v with
  | JStr t => String.eqb s t
  | _ => false
  end.

(** [v[key]] for a string key. *)
Definition subscript (v : json) (key : string) : result json :=
  match v with
  | JObj kv =>
      match dict_lookup key kv with
      | Some x => Return x
      | None => Raise (KeyError key)
      end
  | _ => Raise TypeError
  end.

(** [key in v] for a string key. *)
Definition contains (key : string) (v : json) : result bool :=
  match v with
  | JObj kv => Return (match dict_lookup key kv with Some _ => true | None => false end)
  | JList l => Return (existsb (is_str key) l)
  | JStr s => Return (substring_of key s)
  | _ => Raise TypeError
  end.

(** [v.get(key, default)]. *)
Definition get (v : json) (key : string) (default : json) : result json :=
  match v with
  | JObj kv =>
      match dict_lookup key kv with
      | Some x => Return x
      | None => Return default
      end
  | _ => Raise AttributeError
  end.

(** Truth value of [v] in an [if]. *)
Definition truthy (v : json) : bool :=
  match v with
  | JNull => false
  | JBool b => b
  | JInt z => negb (Z.eqb z 0)
  | JFloat r => negb (String.eqb r "0.0" || String.eqb r "-0.0")
  | JStr s => negb (String.eqb s "")
  | JList l => match l with [] => false | _ => true end
  | JObj kv => match kv with [] => false | _ => true end
  end.

Fixpoint chars (s : string) : list json :=
  match s with
  | EmptyString => []
  | String c s' => JStr (String c EmptyString) :: chars s'
  end.

(** The items a [for] loop over [v] visits. *)
Definition iterate (v : json) : result (list json) :=
  match v with
  | JList l => Return l
  | JObj kv => Return (map (fun p => JStr (fst p)) kv)
  | JStr s => Return (chars s)
  | _ => Raise TypeError
  end.

End Py.

Notation "x <- c1 ;; c2" := (Py.bind c1 (fun x => c2))
  (at level 61, c1 at next level, right associativity).

(** ** The HTTP boundary *)

Inductive verb : Type := GET | POST | PUT | DELETE.

(** One call of [requests.get]/[post]/[put]/[delete].  A keyword argument
    that the call does not pass is [JNull] (Python's [None]). *)
Record request : Type := mkRequest {
  req_verb : verb;
  req_url : string;
  req_headers : list (string * string);
  req_params : json;
  req_json : json
}.

(** What the library hands back: [resp_json] is either the decoded body or
    the message of the decoding error. *)
Record response : Type := mkResponse {
  status_code : Z;
  reason : string;
  resp_url : string;
  resp_json : string + json
}.

Inductive transport : Type :=
| Fails (k : requests_exc) (msg : string)
| Responds (r : response).

(** The envelope, [class CanvasResponse(BaseModel)]. *)
Record CanvasResponse : Type := mkCanvasResponse {
  success : bool;
  data : json;
  error : option string
}.

(** ** Effectful fragment: the request history is the state *)

Definition M (A : Type) : Type := list request -> result A * list request.

Definition ret {A} (a : A) : M A := fun h => (Return a, h).

Definition raise {A} (e : exn) : M A := fun h => (Raise e, h).

Definition mbind {A B} (m : M A) (k : A -> M B) : M B :=
  fun h =>
    match m h with
    | (Return a, h') => k a h'
    | (Raise e, h') => (Raise e, h')
    end.

Definition lift {A} (r : result A) : M A := fun h => (r, h).

(** [try: body / except requests.exceptions.RequestException as e: handler]. *)
Definition try_except {A} (body : M A) (handler : string -> M A) : M A :=
  fun h =>
    match body h with
    | (Raise (RequestException _ msg), h') => handler msg h'
    | other => other
    end.

Notation "x <~ c1 ;; c2" := (mbind c1 (fun x => c2))
  (at level 61, c1 at next level, right associativity).
Notation "c1 ;;; c2" := (mbind c1 (fun _ => c2))
  (at level 61, right associativity).

Definition string_of_Z (z : Z) : string := NilZero.string_of_int (Z.to_int z).

(** The message [Response.raise_for_status] raises with, if it raises. *)
Definition http_error_msg (r : response) : option string :=
  if ((400 <=? status_code r) && (status_code r <? 500))%Z then
    Some (string_of_Z (status_code r) ++ " Client Error: " ++ reason r
          ++ " for url: " ++ resp_url r)
  else if ((500 <=? status_code r) && (status_code r <? 600))%Z then
    Some (string_of_Z (status_code r) ++ " Server Error: " ++ reason r
          ++ " for url: " ++ resp_url r)
  else None.

Section Canvas.

(** The upstream service and network: any function of the history and the
    request. *)
Variable upstream : list request -> request -> transport.

(** [repr] of a list or a dict, used only when such a value is formatted
    into a URL. *)
Variable repr_container : json -> string.

(** [format(v, "")], what an f-string field [{v}] expands to. *)
Definition py_str (v : json) : string :=
  match v with
  | JNull => "None"
  | JBool true => "True"
  | JBool false => "False"
  | JInt z => string_of_Z z
  | JFloat r => r
  | JStr s => s
  | _ => repr_container v
  end.

(** One call into the HTTP library: the request joins the history, and
    the library returns a response or raises. *)
Definition send (r : request) : M response :=
  fun h =>
    match upstream h r with
    | Fails k msg => (Raise (RequestException k msg), (h ++ [r])%list)
    | Responds resp => (Return resp, (h ++ [r])%list)
    end.

Definition requests_get (url : string) (headers : list (string * string))
    (params : json) : M response :=
  send (mkRequest GET url headers params JNull).

Definition requests_post (url : string) (headers : list (string * string))
    (body : json) : M response :=
  send (mkRequest POST url headers JNull body).

Definition requests_put (url : string) (headers : list (string * string))
    (body : json) : M response :=
  send (mkRequest PUT url headers JNull body).

Definition requests_delete (url : string) (headers : list (string * string))
    : M response :=
  send (mkRequest DELETE url headers JNull JNull).

(** [Response.raise_for_status()]: raises [HTTPError] on 4xx and 5xx. *)
Definition raise_for_status (r : response) : M unit :=
  match http_error_msg r with
  | Some msg => raise (RequestException HTTPError msg)
  | None => ret tt
  end.

(** [Response.json()].  The decoding error is the library's own
    [JSONDecodeError], a [RequestException] (requests 2.27 and later). *)
Definition response_json (r : response) : M json :=
  match resp_json r with
  | inr v => ret v
  | inl msg => raise (RequestException JSONDecodeError msg)
  end.

(** *** [canvas_request]

    [response] is a local that only the four branches bind, so it is an
    [option] here and reading it unbound raises. *)
Definition canvas_request (institute_url token endpoint method : string)
    (params data : json) : M CanvasResponse :=
  let base_url := institute_url ++ "/api/v1/" ++ endpoint in
  let headers := [("Authorization", "Bearer " ++ token)] in
  try_except
    (response <~
       (if String.eqb method "GET" then
          r <~ requests_get base_url headers params ;; ret (Some r)
        else if String.eqb method "POST" then
          r <~ requests_post base_url headers data ;; ret (Some r)
        else if String.eqb method "PUT" then
          r <~ requests_put base_url headers data ;; ret (Some r)
        else if String.eqb method "DELETE" then
          r <~ requests_delete base_url headers ;; ret (Some r)
        else ret None) ;;
     match response with
     | None => raise UnboundLocalError
     | Some r =>
         raise_for_status r ;;;
         body <~ response_json r ;;
         ret (mkCanvasResponse true body None)
     end)
    (fun e => ret (mkCanvasResponse false JNull (Some e))).

(** *** [get_missing_assignments] *)

(** The condition of the [if] at the heart of the filter. *)
Definition is_missing (assignment : json) : result bool :=
  has <- Py.contains "submission" assignment ;;
  if has then
    submission <- Py.subscript assignment "submission" ;;
    flag <- Py.get submission "missing" (JBool false) ;;
    Return (Py.truthy flag)
  else Return false.

(** The dict literal appended to [missing_assignments]; its items are
    evaluated in the order written. *)
Definition missing_record (course assignment : json) : result json :=
  course_name <- Py.subscript course "name" ;;
  course_id <- Py.subscript course "id" ;;
  assignment_name <- Py.subscript assignment "name" ;;
  assignment_id <- Py.subscript assignment "id" ;;
  due_date <- Py.get assignment "due_at" JNull ;;
  points_possible <- Py.subscript assignment "points_possible" ;;
  Return (JObj [("course_name", course_name);
                ("course_id", course_id);
                ("assignment_name", assignment_name);
                ("assignment_id", assignment_id);
                ("due_date", due_date);
                ("points_possible", points_possible)]).

(** The inner [for assignment in assignments_response.data] loop; the
    accumulator is the list [missing_assignments]. *)
Fixpoint filter_missing (course : json) (assignments : list json)
    (missing_assignments : list json) : result (list json) :=
  match assignments with
  | [] => Return missing_assignments
  | assignment :: rest =>
      take <- is_missing assignment ;;
      if take then
        rec <- missing_record course assignment ;;
        filter_missing course rest (missing_assignments ++ [rec])%list
      else filter_missing course rest missing_assignments
  end.

Definition courses_params : json := JObj [("enrollment_state", JStr "active")].
Definition assignments_params : json := JObj [("include", JList [JStr "submission"])].

(** The outer [for course in courses_response.data] loop. *)
Fixpoint each_course (institute_url token : string) (courses : list json)
    (missing_assignments : list json) : M (list json) :=
  match courses with
  | [] => ret missing_assignments
  | course :: rest =>
      course_id <~ lift (Py.subscript course "id") ;;
      assignments_response <~
        canvas_request institute_url token
          ("courses/" ++ py_str course_id ++ "/assignments") "GET"
          assignments_params JNull ;;
      if negb (success assignments_response) then
        each_course institute_url token rest missing_assignments
      else
        assignments <~ lift (Py.iterate (data assignments_response)) ;;
        missing_assignments' <~
          lift (filter_missing course assignments missing_assignments) ;;
        each_course institute_url token rest missing_assignments'
  end.

Definition get_missing_assignments (institute_url token : string)
    : M CanvasResponse :=
  courses_response <~
    canvas_request institute_url token "courses" "GET" courses_params JNull ;;
  if negb (success courses_response) then ret courses_response
  else
    courses <~ lift (Py.iterate (data courses_response)) ;;
    missing_assignments <~ each_course institute_url token courses [] ;;
    ret (mkCanvasResponse true (JList missing_assignments) None).

End Canvas.

(** ** Vocabulary of the design

    The definitions below follow the words of the design document; the
    theorems compare them with the code. *)

Definition verb_of_method (method : string) : option verb :=
  if String.eqb method "GET" then Some GET
  else if String.eqb method "POST" then Some POST
  else if String.eqb method "PUT" then Some PUT
  else if String.eqb method "DELETE" then Some DELETE
  else None.

Definition base_url (institute_url endpoint : string) : string :=
  institute_url ++ "/api/v1/" ++ endpoint.

Definition bearer (token : string) : list (string * string) :=
  [("Authorization", "Bearer " ++ token)].

(** The request the design describes: the verb, the query parameters and
    the body exactly as given. *)
Definition described_request (institute_url token endpoint : string) (v : verb)
    (params data : json) : request :=
  mkRequest v (base_url institute_url endpoint) (bearer token) params data.

(** The request the four branches build: query parameters travel with GET
    only, the body with POST and PUT only. *)
Definition issued_request (institute_url token endpoint : string) (v : verb)
    (params data : json) : request :=
  mkRequest v (base_url institute_url endpoint) (bearer token)
    (match v with GET => params | _ => JNull end)
    (match v with POST | PUT => data | _ => JNull end).

Definition failure (description : string) : CanvasResponse :=
  mkCanvasResponse false JNull (Some description).

(** A status the HTTP library reports as an error: 4xx or 5xx. *)
Definition error_status (r : response) : bool :=
  ((400 <=? status_code r) && (status_code r <? 600))%Z.



(** An assignment qualifies when it carries a [submission] object whose
    [missing] flag is true. *)
Definition qualifying (assignment : json) : bool :=
  match assignment with
  | JObj kv =>
      match Py.dict_lookup "submission" kv with
      | Some (JObj sub) =>
          match Py.dict_lookup "missing" sub with
          | Some (JBool true) => true
          | _ => false
          end
      | _ => false
      end
  | _ => false
  end.

Definition has_key (key : string) (v : json) : bool :=
  match v with
  | JObj kv => match Py.dict_lookup key kv with Some _ => true | None => false end
  | _ => false
  end.

(** Shapes of section 3 of the design: a course is an object with [id] and
    [name]; an assignment is an object whose [submission], when present, is
    an object with a boolean [missing] flag, when present; a qualifying
    assignment has [name], [id] and [points_possible]. *)
Definition course_ok (course : json) : bool :=
  has_key "id" course && has_key "name" course.

Definition submission_ok (assignment : json) : bool :=
  match assignment with
  | JObj kv =>
      match Py.dict_lookup "submission" kv with
      | None => true
      | Some (JObj sub) =>
          match Py.dict_lookup "missing" sub with
          | None => true
          | Some (JBool _) => true
          | Some _ => false
          end
      | Some _ => false
      end
  | _ => false
  end.

Definition assignment_ok (assignment : json) : bool :=
  submission_ok assignment &&
  (if qualifying assignment then
     has_key "name" assignment && has_key "id" assignment
     && has_key "points_possible" assignment
   else true).

Definition payload_ok (env : CanvasResponse) : bool :=
  if success env then
    match data env with
    | JList assignments => forallb assignment_ok assignments
    | _ => false
    end
  else true.

(** MissingAssignmentRecord.  An absent [due_at] becomes null. *)
Definition value_of (key : string) (v : json) : json :=
  match v with
  | JObj kv =>
      match Py.dict_lookup key kv with
      | Some x => x
      | None => JNull
      end
  | _ => JNull
  end.

Definition record_of (course assignment : json) : json :=
  JObj [("course_name", value_of "name" course);
        ("course_id", value_of "id" course);
        ("assignment_name", value_of "name" assignment);
        ("assignment_id", value_of "id" assignment);
        ("due_date", value_of "due_at" assignment);
        ("points_possible", value_of "points_possible" assignment)].

(** What one course adds to the result, given the envelope of its call. *)
Definition contribution (course : json) (env : CanvasResponse) : list json :=
  if success env then
    match data env with
    | JList assignments => map (record_of course) (filter qualifying assignments)
    | _ => []
    end
  else [].

(** A computation of the pure fragment is quiet when it raises no
    exception of the HTTP library. *)
Definition quiet {A} (r : result A) : Prop :=
  forall e, r = Raise e -> is_RequestException e = false.

(** The envelope that stands for an outcome of the HTTP library. *)
Definition envelope_of (t : transport) : CanvasResponse :=
  match t with
  | Fails _ msg => failure msg
  | Responds r =>
      match http_error_msg r with
      | Some msg => failure msg
      | None =>
          match resp_json r with
          | inr body => mkCanvasResponse true body None
          | inl msg => failure msg
          end
      end
  end.

Section Observations.

Variable upstream : list request -> request -> transport.
Variable repr_container : json -> string.

(** ** What the Aggregator observes of the Gateway

    The per-course calls, seen from outside: the request each course
    leads to and the envelope each call comes back with, in the order of
    the calls.  The history grows by one request per call. *)

Definition gateway (institute_url token endpoint : string) (params : json)
    (h : list request) : CanvasResponse :=
  envelope_of (upstream h (issued_request institute_url token endpoint GET params JNull)).

Definition courses_request (institute_url token : string) : request :=
  issued_request institute_url token "courses" GET courses_params JNull.

Definition assignments_endpoint (course : json) : string :=
  "courses/" ++ py_str repr_container (value_of "id" course) ++ "/assignments".

Definition assignments_request (institute_url token : string) (course : json)
    : request :=
  issued_request institute_url token (assignments_endpoint course) GET
    assignments_params JNull.

Definition requests_for (institute_url token : string) (courses : list json)
    : list request :=
  map (assignments_request institute_url token) courses.

Fixpoint responses (institute_url token : string) (courses : list json)
    (h : list request) : list CanvasResponse :=
  match courses with
  | [] => []
  | course :: rest =>
      gateway institute_url token (assignments_endpoint course) assignments_params h
      :: responses institute_url token rest
           (h ++ [assignments_request institute_url token course])%list
  end.

(** The records the design asks for, course by course. *)
Definition course_records (institute_url token : string) (courses : list json)
    (h : list request) : list json :=
  flat_map (fun ce => contribution (fst ce) (snd ce))
    (combine courses (responses institute_url token courses h)).

End Observations.

(** ** Concrete upstreams used in the examples *)

Module Scenario.

Definition institute : string := "https://canvas.test".
Definition token : string := "secret".

Definition no_repr (v : json) : string := "".

Definition ok (url : string) (body : json) : transport :=
  Responds (mkResponse 200 "OK" url (inr body)).

Definition not_found (url : string) : transport :=
  Responds (mkResponse 404 "Not Found" url (inl "no body")).

Definition math : json := JObj [("id", JInt 10); ("name", JStr "Math")].
Definition art : json := JObj [("id", JInt 20); ("name", JStr "Art")].
Definition bio : json := JObj [("id", JInt 30); ("name", JStr "Bio")].

Definition assignment (id : Z) (name : string) (extra : list (string * json))
    : json :=
  JObj (("id", JInt id) :: ("name", JStr name) :: extra).

Definition missing (flag : bool) : string * json :=
  ("submission", JObj [("missing", JBool flag)]).

Definition hw1 : json :=
  assignment 100 "HW1"
    [("due_at", JStr "2024-01-01"); ("points_possible", JInt 10); missing true].

(** A server that answers by URL alone. *)
Definition serve (table : list (string * json)) (h : list request)
    (r : request) : transport :=
  match Py.dict_lookup (req_url r) table with
  | Some body => ok (req_url r) body
  | None => not_found (req_url r)
  end.

(** The scenario of the design: one course, one missing assignment. *)
Definition one_course : list request -> request -> transport :=
  serve [("https://canvas.test/api/v1/courses", JList [math]);
         ("https://canvas.test/api/v1/courses/10/assignments", JList [hw1])].

(** Three courses; the assignments call of the second one fails. *)
Definition three_courses : list request -> request -> transport :=
  serve [("https://canvas.test/api/v1/courses", JList [math; art; bio]);
         ("https://canvas.test/api/v1/courses/10/assignments", JList [hw1]);
         ("https://canvas.test/api/v1/courses/30/assignments",
          JList [assignment 300 "Lab" [("points_possible", JInt 5); missing true];
                 assignment 301 "Quiz" [("points_possible", JInt 5); missing false]])].

(** A qualifying assignment without [points_possible]. *)
Definition no_points : list request -> request -> transport :=
  serve [("https://canvas.test/api/v1/courses", JList [math]);
         ("https://canvas.test/api/v1/courses/10/assignments",
          JList [assignment 100 "HW1" [missing true]])].

(** The course list cannot be fetched. *)
Definition unreachable (h : list request) (r : request) : transport :=
  Fails ConnectionError "connection refused".

(** [one_course] seen through another server: same bodies, but successes
    come back as 201. *)
Definition one_course_created (h : list request) (r : request) : transport :=
  match one_course h r with
  | Responds resp =>
      if error_status resp then Responds resp
      else Responds (mkResponse 201 "Created" (resp_url resp) (resp_json resp))
  | t => t
  end.

(** The three assignments of property P4, with the fields the record
    needs given as [extra]. *)
Definition p4_first (extra : list (string * json)) : json :=
  JObj (("id", JInt 1) :: ("submission", JObj [("missing", JBool true)]) :: extra).
Definition p4_second (extra : list (string * json)) : json :=
  JObj (("id", JInt 2) :: ("submission", JObj [("missing", JBool false)]) :: extra).
Definition p4_third (extra : list (string * json)) : json :=
  JObj (("id", JInt 3) :: extra).

Definition p4_fields : list (string * json) :=
  [("name", JStr "HW"); ("points_possible", JInt 1)].

(** One course whose payload is the three assignments of P4 exactly as the
    design writes them: an id and, for the first two, a submission. *)
Definition p4_literal : list request -> request -> transport :=
  serve [("https://canvas.test/api/v1/courses", JList [math]);
         ("https://canvas.test/api/v1/courses/10/assignments",
          JList [p4_first []; p4_second []; p4_third []])].

End Scenario.

(** ** The other endpoints of [app]

    Every route but the last forwards one GET to the Gateway.  A path
    parameter declared [int] is a [Z]; an optional query parameter is an
    [option]. *)

Definition optional_str (o : option string) : json :=
  match o with
  | Some s => JStr s
  | None => JNull
  end.

Definition optional_list (o : option (list string)) : json :=
  match o with
  | Some l => JList (map JStr l)
  | None => JNull
  end.

(** [d[key] = v]: the value of an existing key is replaced where it stands,
    a new key goes last. *)
Fixpoint dict_setitem (key : string) (v : json) (kv : list (string * json))
    : list (string * json) :=
  match kv with
  | [] => [(key, v)]
  | (k, x) :: rest =>
      if String.eqb key k then (k, v) :: rest
      else (k, x) :: dict_setitem key v rest
  end.

(** [class StudyGuideRequest(BaseModel)]. *)
Record StudyGuideRequest : Type := mkStudyGuideRequest {
  course_id : Z;
  module_ids : option (list Z);
  topic : option string
}.

Section Endpoints.

Variable upstream : list request -> request -> transport.

Definition get_courses (institute_url token : string)
    (enrollment_state : option string) : M CanvasResponse :=
  canvas_request upstream institute_url token "courses" "GET"
    (JObj [("enrollment_state", optional_str enrollment_state)]) JNull.

Definition get_course (course : Z) (institute_url token : string)
    : M CanvasResponse :=
  canvas_request upstream institute_url token
    ("courses/" ++ string_of_Z course) "GET" JNull JNull.

Definition get_assignments (course : Z) (institute_url token : string)
    (include : option (list string)) : M CanvasResponse :=
  let params := [] in
  let params :=
    if Py.truthy (optional_list include)
    then dict_setitem "include" (optional_list include) params
    else params in
  canvas_request upstream institute_url token
    ("courses/" ++ string_of_Z course ++ "/assignments") "GET"
    (JObj params) JNull.

Definition get_assignment (course assignment : Z) (institute_url token : string)
    : M CanvasResponse :=
  canvas_request upstream institute_url token
    ("courses/" ++ string_of_Z course ++ "/assignments/"
     ++ string_of_Z assignment) "GET" JNull JNull.

Definition get_modules (course : Z) (institute_url token : string)
    : M CanvasResponse :=
  canvas_request upstream institute_url token
    ("courses/" ++ string_of_Z course ++ "/modules") "GET" JNull JNull.

Definition get_module_items (course module : Z) (institute_url token : string)
    : M CanvasResponse :=
  canvas_request upstream institute_url token
    ("courses/" ++ string_of_Z course ++ "/modules/" ++ string_of_Z module
     ++ "/items") "GET" JNull JNull.

Definition get_course_files (course : Z) (institute_url token : string)
    : M CanvasResponse :=
  canvas_request upstream institute_url token
    ("courses/" ++ string_of_Z course ++ "/files") "GET" JNull JNull.

Definition get_announcements (course : Z) (institute_url token : string)
    : M CanvasResponse :=
  canvas_request upstream institute_url token
    ("courses/" ++ string_of_Z course ++ "/announcements") "GET" JNull JNull.

Definition get_grades (course : Z) (institute_url token : string)
    : M CanvasResponse :=
  canvas_request upstream institute_url token
    ("courses/" ++ string_of_Z course ++ "/grades") "GET" JNull JNull.

Definition study_guide_section (title content : string) : json :=
  JObj [("title", JStr title); ("content", JStr content)].

Definition generate_study_guide (request : StudyGuideRequest)
    (institute_url token : string) : M CanvasResponse :=
  ret (mkCanvasResponse true
         (JObj
            [("title",
              JStr ("Study Guide for Course " ++ string_of_Z (course_id request)));
             ("sections",
              JList
                [study_guide_section "Key Concepts"
                   "This would contain key concepts from the course.";
                 study_guide_section "Important Definitions"
                   "This would contain important definitions.";
                 study_guide_section "Practice Questions"
                   "This would contain practice questions."])])
         None).

(** The forwarding routes registered on [app], with their arguments. *)
Inductive route : Type :=
| Courses (enrollment_state : option string)
| Course (course : Z)
| Assignments (course : Z) (include : option (list string))
| Assignment (course assignment : Z)
| Modules (course : Z)
| ModuleItems (course module : Z)
| CourseFiles (course : Z)
| Announcements (course : Z)
| Grades (course : Z).

Definition handle (r : route) (institute_url token : string) : M CanvasResponse :=
  match r with
  | Courses enrollment_state => get_courses institute_url token enrollment_state
  | Course c => get_course c institute_url token
  | Assignments c include => get_assignments c institute_url token include
  | Assignment c a => get_assignment c a institute_url token
  | Modules c => get_modules c institute_url token
  | ModuleItems c m => get_module_items c m institute_url token
  | CourseFiles c => get_course_files c institute_url token
  | Announcements c => get_announcements c institute_url token
  | Grades c => get_grades c institute_url token
  end.

End Endpoints.

(** The path each route is registered under, with its parameters filled
    in. *)
Definition route_path (r : route) : string :=
  match r with
  | Courses _ => "/courses"
  | Course c => "/courses/" ++ string_of_Z c
  | Assignments c _ => "/courses/" ++ string_of_Z c ++ "/assignments"
  | Assignment c a =>
      "/courses/" ++ string_of_Z c ++ "/assignments/" ++ string_of_Z a
  | Modules c => "/courses/" ++ string_of_Z c ++ "/modules"
  | ModuleItems c m =>
      "/courses/" ++ string_of_Z c ++ "/modules/" ++ string_of_Z m ++ "/items"
  | CourseFiles c => "/courses/" ++ string_of_Z c ++ "/files"
  | Announcements c => "/courses/" ++ string_of_Z c ++ "/announcements"
  | Grades c => "/courses/" ++ string_of_Z c ++ "/grades"
  end.

(** The query parameters a route sends upstream. *)
Definition route_query (r : route) : json :=
  match r with
  | Courses enrollment_state =>
      JObj [("enrollment_state", optional_str enrollment_state)]
  | Assignments _ (Some (first :: others)) =>
      JObj [("include", JList (map JStr (first :: others)))]
  | Assignments _ _ => JObj []
  | _ => JNull
  end.

(** A route without its query options: the upstream resource it names. *)
Definition resource_of (r : route) : route :=
  match r with
  | Courses _ => Courses None
  | Assignments c _ => Assignments c None
  | other => other
  end.

(** The course a route is about and what follows it in the path. *)
Definition route_tail (r : route) : option (Z * string) :=
  match r with
  | Courses _ => None
  | Course c => Some (c, "")
  | Assignments c _ => Some (c, "/assignments")
  | Assignment c a => Some (c, "/assignments/" ++ string_of_Z a)
  | Modules c => Some (c, "/modules")
  | ModuleItems c m => Some (c, "/modules/" ++ string_of_Z m ++ "/items")
  | CourseFiles c => Some (c, "/files")
  | Announcements c => Some (c, "/announcements")
  | Grades c => Some (c, "/grades")
  end.

(** The shape of the request the Aggregator sends for a course. *)
Definition per_course_request (institute_url token : string) (rq : request)
    : Prop :=
  exists course_text,
    rq = mkRequest GET
           (institute_url ++ "/api/v1/courses/" ++ course_text ++ "/assignments")
           [("Authorization", "Bearer " ++ token)]
           (JObj [("include", JList [JStr "submission"])]) JNull.

(** ** The filter as the code applies it to any payload

    [passes] is the test of the inner loop on an arbitrary value: the flag
    counts through its truth value, whatever its type. *)

Definition passes (assignment : json) : bool :=
  match assignment with
  | JObj kv =>
      match Py.dict_lookup "submission" kv with
      | Some (JObj sub) =>
          match Py.dict_lookup "missing" sub with
          | Some flag => Py.truthy flag
          | None => false
          end
      | _ => false
      end
  | _ => false
  end.

Definition records_any (course : json) (env : CanvasResponse) : list json :=
  if success env then
    match Py.iterate (data env) with
    | Return items => map (record_of course) (filter passes items)
    | Raise _ => []
    end
  else [].

Definition record_keys : list string :=
  ["course_name"; "course_id"; "assignment_name"; "assignment_id";
   "due_date"; "points_possible"].

Definition is_record (v : json) : Prop :=
  exists kv, v = JObj kv /\ map fst kv = record_keys.

Fixpoint has_char (c : ascii) (s : string) : bool :=
  match s with
  | EmptyString => false
  | String a rest => Ascii.eqb a c || has_char c rest
  end.

(** ** The test script, [test_api.py]

    The script talks to the running application over HTTP and prints what
    it sees.  Its state is the history of the requests it has sent and the
    texts it has printed, one per call of [print] or [pprint].  The
    application is an oracle [server]; the text of a response body, the
    text [pprint] gives a value and the text of an exception come from
    outside the repository and are parameters, and so is the token
    literal, whose value plays no part. *)

Module TestApi.

(** The exceptions of the script: those of the application model and the
    two an integer subscript adds. *)
Inductive error : Type :=
| Raised (e : exn)
| IndexError
| KeyErrorInt (key : Z).

Inductive outcome (A : Type) : Type :=
| Done (a : A)
| Failed (e : error).

Arguments Done {A} a.
Arguments Failed {A} e.

Record world : Type := mkWorld {
  sent : list request;
  printed : list string
}.

Definition IO (A : Type) : Type := world -> outcome A * world.

Definition pure {A} (a : A) : IO A := fun w => (Done a, w).

Definition fail {A} (e : error) : IO A := fun w => (Failed e, w).

Definition bind {A B} (m : IO A) (k : A -> IO B) : IO B :=
  fun w =>
    match m w with
    | (Done a, w') => k a w'
    | (Failed e, w') => (Failed e, w')
    end.

Definition print (text : string) : IO unit :=
  fun w => (Done tt, mkWorld (sent w) (printed w ++ [text])).

(** A computation of the pure fragment, run inside the script. *)
Definition eval {A} (r : result A) : IO A :=
  match r with
  | Return a => pure a
  | Raise e => fail (Raised e)
  end.

(** A call into the HTTP library, run inside the script. *)
Definition call {A} (m : M A) : IO A :=
  fun w =>
    match m (sent w) with
    | (Return a, h) => (Done a, mkWorld h (printed w))
    | (Raise e, h) => (Failed (Raised e), mkWorld h (printed w))
    end.

(** [try: body / except Exception as e: handler]. *)
Definition try_except_Exception {A} (body : IO A) (handler : error -> IO A)
    : IO A :=
  fun w =>
    match body w with
    | (Failed e, w') => handler e w'
    | other => other
    end.

Definition nl : string := String (ascii_of_nat 10) EmptyString.

Fixpoint times (n : nat) (s : string) : string :=
  match n with
  | O => EmptyString
  | S n' => s ++ times n' s
  end.

(** [v[0]]. *)
Definition item0 (v : json) : outcome json :=
  match v with
  | JList (x :: _) => Done x
  | JList [] => Failed IndexError
  | JStr (String c _) => Done (JStr (String c EmptyString))
  | JStr EmptyString => Failed IndexError
  | JObj _ => Failed (KeyErrorInt 0)
  | _ => Failed (Raised TypeError)
  end.

Definition BASE_URL : string := "http://localhost:8000".
Definition INSTITUTE_URL : string := "https://uncg.instructure.com".

Section Script.

Variable server : list request -> request -> transport.
Variable repr_container : json -> string.
Variable pformat : json -> string.
Variable response_text : response -> string.
Variable error_text : error -> string.
Variable TOKEN : string.

Definition requests_get (url : string) (params : json) : IO response :=
  call (send server (mkRequest GET url [] params JNull)).

Definition requests_post (url : string) (params body : json) : IO response :=
  call (send server (mkRequest POST url [] params body)).

(** The branch of [test_endpoint] for status 200.  The script reads
    [result['success']] and [result['data']] anew at each use; a read has
    no effect, so one read stands for them. *)
Definition report (result : json) : IO unit :=
  bind (eval (Py.subscript result "success")) (fun ok =>
  bind (print ("Success: " ++ py_str repr_container ok)) (fun _ =>
  if Py.truthy ok then
    bind (eval (Py.subscript result "data")) (fun payload =>
    match payload with
    | JList items =>
        bind (print ("Found " ++ string_of_Z (Z.of_nat (length items))
                     ++ " items")) (fun _ =>
        match items with
        | first :: _ =>
            bind (print (nl ++ "First item:")) (fun _ => print (pformat first))
        | [] => pure tt
        end)
    | _ => bind (print (nl ++ "Data:")) (fun _ => print (pformat payload))
    end)
  else
    bind (eval (Py.subscript result "error")) (fun e =>
    print ("Error: " ++ py_str repr_container e)))).

Definition test_endpoint (endpoint : string)
    (params : option (list (string * json))) (method : string) (data : json)
    : IO unit :=
  let url := BASE_URL ++ "/" ++ endpoint in
  let params := match params with None => [] | Some given => given end in
  let params := dict_setitem "institute_url" (JStr INSTITUTE_URL) params in
  let params := dict_setitem "token" (JStr TOKEN) params in
  bind (print (nl ++ times 50 "=")) (fun _ =>
  bind (print ("Testing: " ++ method ++ " " ++ endpoint)) (fun _ =>
  bind (print (times 50 "=")) (fun _ =>
  try_except_Exception
    (bind
       (if String.eqb method "GET" then
          bind (requests_get url (JObj params)) (fun r => pure (Some r))
        else if String.eqb method "POST" then
          bind (requests_post url (JObj params) data) (fun r => pure (Some r))
        else pure None)
       (fun response =>
          match response with
          | None => fail (Raised UnboundLocalError)
          | Some r =>
              bind (print ("Status Code: " ++ string_of_Z (status_code r)))
                (fun _ =>
                 if Z.eqb (status_code r) 200 then
                   bind (call (response_json r)) report
                 else print ("Error: " ++ response_text r))
          end))
    (fun e => print ("Exception: " ++ error_text e))))).

Definition run_tests : IO unit :=
  bind (print (nl ++ "Starting Canvas API Tests")) (fun _ =>
  bind (print (times 25 "-")) (fun _ =>
  bind (test_endpoint "courses" None "GET" JNull) (fun _ =>
  bind (requests_get (BASE_URL ++ "/courses")
          (JObj [("institute_url", JStr INSTITUTE_URL); ("token", JStr TOKEN)]))
    (fun response =>
  bind (if Z.eqb (status_code response) 200 then
          bind (call (response_json response)) (fun body =>
          bind (eval (Py.subscript body "success")) (fun ok =>
          pure (Py.truthy ok)))
        else pure false) (fun usable =>
  bind (if usable then
          bind (call (response_json response)) (fun body =>
          bind (eval (Py.subscript body "data")) (fun courses =>
          if Py.truthy courses then
            bind (fun w => (item0 courses, w)) (fun first =>
            bind (eval (Py.subscript first "id")) (fun course =>
            let id := py_str repr_container course in
            bind (test_endpoint ("courses/" ++ id) None "GET" JNull) (fun _ =>
            bind (test_endpoint ("courses/" ++ id ++ "/assignments") None "GET"
                    JNull) (fun _ =>
            bind (test_endpoint ("courses/" ++ id ++ "/modules") None "GET"
                    JNull) (fun _ =>
            bind (test_endpoint "missing_assignments" None "GET" JNull)
              (fun _ =>
            test_endpoint "generate_study_guide" None "POST"
              (JObj [("course_id", course)])))))))
          else pure tt))
        else pure tt) (fun _ =>
  print (nl ++ "Tests completed!"))))))).

(** What [test_endpoint] is expected to send and to print first. *)
Definition query_of (params : option (list (string * json))) : json :=
  JObj (dict_setitem "token" (JStr TOKEN)
          (dict_setitem "institute_url" (JStr INSTITUTE_URL)
             (match params with None => [] | Some given => given end))).

Definition requests_of_call (endpoint : string)
    (params : option (list (string * json))) (method : string) (data : json)
    : list request :=
  if String.eqb method "GET" then
    [mkRequest GET (BASE_URL ++ "/" ++ endpoint) [] (query_of params) JNull]
  else if String.eqb method "POST" then
    [mkRequest POST (BASE_URL ++ "/" ++ endpoint) [] (query_of params) data]
  else [].

Definition banner (endpoint method : string) : list string :=
  [nl ++ times 50 "="; "Testing: " ++ method ++ " " ++ endpoint; times 50 "="].

(** The course-list request, which [run_tests] sends itself and through
    [test_endpoint], and the five requests about one course. *)
Definition courses_query : request :=
  mkRequest GET (BASE_URL ++ "/courses") []
    (JObj [("institute_url", JStr INSTITUTE_URL); ("token", JStr TOKEN)]) JNull.

Definition follow_ups (course : json) : list request :=
  let id := py_str repr_container course in
  (requests_of_call ("courses/" ++ id) None "GET" JNull
   ++ requests_of_call ("courses/" ++ id ++ "/assignments") None "GET" JNull
   ++ requests_of_call ("courses/" ++ id ++ "/modules") None "GET" JNull
   ++ requests_of_call "missing_assignments" None "GET" JNull
   ++ requests_of_call "generate_study_guide" None "POST"
        (JObj [("course_id", course)]))%list.

(** A step of the script that sends nothing and only adds to the output. *)
Definition silent {A} (m : IO A) : Prop :=
  forall w, exists o out,
    m w = (o, mkWorld (sent w) (printed w ++ out)%list).

End Script.

End TestApi.

(** Concrete applications for the examples of the script. *)

Module ScriptScenario.

Definition plain_value (v : json) : string := "".
Definition plain_body (r : response) : string := "".
Definition plain_error (e : TestApi.error) : string := "".

Definition start : TestApi.world := TestApi.mkWorld [] [].

(** The application is not running. *)
Definition app_down (h : list request) (r : request) : transport :=
  Fails ConnectionError "connection refused".

(** The application answers every request with a success whose data is a
    list of two courses. *)
Definition app_up (h : list request) (r : request) : transport :=
  Responds
    (mkResponse 200 "OK" (req_url r)
       (inr (JObj [("success", JBool true);
                   ("data", JList [JObj [("id", JInt 7)]; JObj [("id", JInt 8)]]);
                   ("error", JNull)]))).

(** The application answers every request with status 500. *)
Definition app_broken (h : list request) (r : request) : transport :=
  Responds (mkResponse 500 "Internal Server Error" (req_url r) (inl "no body")).

End ScriptScenario.

(** Two courses, the second with an assignment whose [submission] is
    null. *)
Module ShapeScenario.

Definition null_submission : list request -> request -> transport :=
  Scenario.serve
    [("https://canvas.test/api/v1/courses",
      JList [Scenario.math; Scenario.art; Scenario.bio]);
     ("https://canvas.test/api/v1/courses/10/assignments", JList [Scenario.hw1]);
     ("https://canvas.test/api/v1/courses/20/assignments",
      JList [JObj [("id", JInt 200); ("name", JStr "Essay");
                   ("points_possible", JInt 3); ("submission", JNull)]]);
     ("https://canvas.test/api/v1/courses/30/assignments", JList [Scenario.hw1])].

End ShapeScenario.

(** * Properties of the Gateway *)

Section GatewayProperties.

Variable upstream : list request -> request -> transport.

Ltac run_gateway :=
  unfold canvas_request, try_except, mbind, requests_get, requests_post,
    requests_put, requests_delete, send, raise_for_status, response_json,
    envelope_of, issued_request, base_url, bearer, raise, ret, failure.

Lemma verb_of_method_none method :
  verb_of_method method = None ->
  String.eqb method "GET" = false /\ String.eqb method "POST" = false /\
  String.eqb method "PUT" = false /\ String.eqb method "DELETE" = false.
Proof.
  unfold verb_of_method.
  destruct (String.eqb method "GET"); [discriminate|].
  destruct (String.eqb method "POST"); [discriminate|].
  destruct (String.eqb method "PUT"); [discriminate|].
  destruct (String.eqb method "DELETE"); [discriminate|].
  auto.
Qed.

(** One run of the Gateway with one of the four verbs: one request goes
    out, and the envelope is the image of what came back. *)
Lemma canvas_request_run institute_url token endpoint method v params body h :
  verb_of_method method = Some v ->
  canvas_request upstream institute_url token endpoint method params body h =
    (Return (envelope_of
               (upstream h (issued_request institute_url token endpoint v params body))),
     (h ++ [issued_request institute_url token endpoint v params body])%list).
Proof.
  unfold verb_of_method. run_gateway.
  destruct (String.eqb method "GET");
    [ intros [= <-]
    | destruct (String.eqb method "POST");
      [ intros [= <-]
      | destruct (String.eqb method "PUT");
        [ intros [= <-]
        | destruct (String.eqb method "DELETE");
          [ intros [= <-] | discriminate ] ] ] ].
  all: match goal with
       | |- context [upstream ?h0 ?rq] => destruct (upstream h0 rq) as [k msg | r]
       end; [reflexivity|].
  all: destruct (http_error_msg r); [reflexivity|].
  all: destruct (resp_json r); reflexivity.
Qed.

Lemma canvas_request_unbound institute_url token endpoint method params body h :
  verb_of_method method = None ->
  canvas_request upstream institute_url token endpoint method params body h =
    (Raise UnboundLocalError, h).
Proof.
  intros Hm. destruct (verb_of_method_none _ Hm) as (E1 & E2 & E3 & E4).
  run_gateway. rewrite E1, E2, E3, E4. reflexivity.
Qed.






(** C8, as the code has it.  With one of the four verbs the Gateway issues
    exactly one request: to base address, then [/api/v1/], then the
    resource path, with the bearer header and the given verb; the query
    parameters are sent with GET only and the body with POST and PUT
    only. *)
Theorem one_request_per_verb institute_url token endpoint method v params body h :
  verb_of_method method = Some v ->
  snd (canvas_request upstream institute_url token endpoint method params body h)
  = (h ++ [mkRequest v
             (institute_url ++ "/api/v1/" ++ endpoint)%string
             [("Authorization", ("Bearer " ++ token)%string)]
             (match v with GET => params | _ => JNull end)
             (match v with POST | PUT => body | _ => JNull end)])%list.
Proof.
  intros Hm. rewrite (canvas_request_run _ _ _ _ _ _ _ _ Hm). reflexivity.
Qed.

(** C9.  A method that is none of GET, POST, PUT and DELETE sends nothing
    and makes the Gateway raise [UnboundLocalError], which the handler for
    [RequestException] does not catch. *)
Theorem unknown_method_raises institute_url token endpoint method params body h :
  method <> "GET" -> method <> "POST" -> method <> "PUT" -> method <> "DELETE" ->
  canvas_request upstream institute_url token endpoint method params body h
  = (Raise UnboundLocalError, h)
  /\ is_RequestException UnboundLocalError = false.
Proof.
  intros G P U D. split; [|reflexivity].
  apply canvas_request_unbound. unfold verb_of_method.
  apply String.eqb_neq in G, P, U, D. rewrite G, P, U, D. reflexivity.
Qed.

End GatewayProperties.

(** The design's reading of C8 fails for POST: the query parameters given
    to the Gateway are not part of the request. *)
Lemma described_request_not_issued :
  snd (canvas_request Scenario.one_course Scenario.institute Scenario.token
         "courses" "POST" (JObj [("page", JInt 2)]) (JObj [("name", JStr "x")]) [])
  <> [described_request Scenario.institute Scenario.token "courses" POST
        (JObj [("page", JInt 2)]) (JObj [("name", JStr "x")])].
Proof. vm_compute. intros H. discriminate H. Qed.



Lemma one_request_per_verb_witness :
  snd (canvas_request Scenario.one_course Scenario.institute Scenario.token
         "courses" "POST" (JObj [("page", JInt 2)]) (JObj [("name", JStr "x")]) [])
  = [mkRequest POST "https://canvas.test/api/v1/courses"
       [("Authorization", "Bearer secret")] JNull (JObj [("name", JStr "x")])].
Proof.
  apply (one_request_per_verb Scenario.one_course Scenario.institute
           Scenario.token "courses" "POST" POST).
  reflexivity.
Defined.

Lemma unknown_method_raises_witness :
  canvas_request Scenario.one_course Scenario.institute Scenario.token
    "courses" "PATCH" JNull JNull []
  = (Raise UnboundLocalError, [])
  /\ is_RequestException UnboundLocalError = false.
Proof.
  apply (unknown_method_raises Scenario.one_course Scenario.institute
           Scenario.token "courses" "PATCH"); discriminate.
Defined.

(** * Properties of the Aggregator *)

(** ** The filter and the projection *)

Lemma is_missing_qualifying assignment :
  submission_ok assignment = true ->
  is_missing assignment = Return (qualifying assignment).
Proof.
  destruct assignment as [ | | | | | | kv]; try discriminate.
  unfold submission_ok, is_missing, qualifying. cbn.
  destruct (Py.dict_lookup "submission" kv) as [[ | | | | | | sub] | ];
    try discriminate; cbn; [|reflexivity].
  destruct (Py.dict_lookup "missing" sub) as [[ | [|] | | | | | ] | ];
    try discriminate; reflexivity.
Qed.

Lemma subscript_value_of key v :
  has_key key v = true -> Py.subscript v key = Return (value_of key v).
Proof.
  destruct v as [ | | | | | | kv]; try discriminate.
  unfold has_key, Py.subscript, value_of.
  destruct (Py.dict_lookup key kv); [reflexivity | discriminate].
Qed.

Lemma get_value_of key kv :
  Py.get (JObj kv) key JNull = Return (value_of key (JObj kv)).
Proof.
  unfold Py.get, value_of. destruct (Py.dict_lookup key kv); reflexivity.
Qed.

Lemma has_key_object key v :
  has_key key v = true -> exists kv, v = JObj kv.
Proof. destruct v; try discriminate. eauto. Qed.

Lemma missing_record_spec course assignment :
  course_ok course = true ->
  has_key "name" assignment = true ->
  has_key "id" assignment = true ->
  has_key "points_possible" assignment = true ->
  missing_record course assignment = Return (record_of course assignment).
Proof.
  unfold course_ok. intros Hc Hn Hi Hp.
  apply andb_true_iff in Hc. destruct Hc as [Hcid Hcname].
  unfold missing_record.
  rewrite (subscript_value_of _ _ Hcname), (subscript_value_of _ _ Hcid),
    (subscript_value_of _ _ Hn), (subscript_value_of _ _ Hi),
    (subscript_value_of _ _ Hp).
  destruct (has_key_object _ _ Hn) as [kv ->].
  cbn [Py.bind]. rewrite get_value_of. reflexivity.
Qed.

Lemma filter_missing_spec course assignments :
  course_ok course = true ->
  forallb assignment_ok assignments = true ->
  forall acc,
    filter_missing course assignments acc
    = Return (acc ++ map (record_of course) (filter qualifying assignments))%list.
Proof.
  intros Hc. induction assignments as [|a rest IH]; intros Hall acc.
  - cbn. now rewrite app_nil_r.
  - cbn [forallb] in Hall. apply andb_true_iff in Hall. destruct Hall as [Ha Hrest].
    unfold assignment_ok in Ha. apply andb_true_iff in Ha. destruct Ha as [Hs Hq].
    cbn [filter_missing filter]. rewrite (is_missing_qualifying _ Hs). cbn [Py.bind].
    destruct (qualifying a).
    + apply andb_true_iff in Hq. destruct Hq as [Hq Hp].
      apply andb_true_iff in Hq. destruct Hq as [Hn Hi].
      rewrite (missing_record_spec _ _ Hc Hn Hi Hp). cbn [Py.bind].
      rewrite (IH Hrest). cbn [map]. now rewrite <- app_assoc.
    + apply (IH Hrest).
Qed.

(** ** What the pure fragment can raise

    Subscripting, [in], [get] and iteration raise [KeyError], [TypeError]
    or [AttributeError], never an exception of the HTTP library. *)

Lemma quiet_return {A} (a : A) : quiet (Return a).
Proof. intros e H. discriminate H. Qed.

Lemma quiet_bind {A B} (r : result A) (k : A -> result B) :
  quiet r -> (forall a, quiet (k a)) -> quiet (Py.bind r k).
Proof.
  intros Hr Hk e. destruct r as [a|e']; cbn.
  - apply Hk.
  - intros [= <-]. apply Hr. reflexivity.
Qed.

Lemma quiet_subscript v key : quiet (Py.subscript v key).
Proof.
  intros e. destruct v as [ | | | | | | kv]; cbn;
    try (intros [= <-]; reflexivity).
  destruct (Py.dict_lookup key kv); intros [= <-]; reflexivity.
Qed.

Lemma quiet_contains key v : quiet (Py.contains key v).
Proof. intros e. destruct v; cbn; intros [= <-]; reflexivity. Qed.

Lemma quiet_get v key default : quiet (Py.get v key default).
Proof.
  intros e. destruct v as [ | | | | | | kv]; cbn;
    try (intros [= <-]; reflexivity).
  destruct (Py.dict_lookup key kv); intros [=].
Qed.

Lemma quiet_iterate v : quiet (Py.iterate v).
Proof. intros e. destruct v; cbn; intros [= <-]; reflexivity. Qed.

Create HintDb quiet.

#[local] Hint Resolve quiet_return quiet_subscript quiet_contains quiet_get
  quiet_iterate : quiet.

Lemma quiet_is_missing assignment : quiet (is_missing assignment).
Proof.
  unfold is_missing. apply quiet_bind; [auto with quiet|].
  intros [|]; [|auto with quiet].
  repeat (apply quiet_bind; [auto with quiet | intros ?]). auto with quiet.
Qed.

Lemma quiet_missing_record course assignment :
  quiet (missing_record course assignment).
Proof.
  unfold missing_record.
  repeat (apply quiet_bind; [auto with quiet | intros ?]). auto with quiet.
Qed.

Lemma quiet_filter_missing course assignments :
  forall acc, quiet (filter_missing course assignments acc).
Proof.
  induction assignments as [|a rest IH]; intros acc; cbn [filter_missing].
  - auto with quiet.
  - apply quiet_bind; [apply quiet_is_missing|].
    intros [|]; [|apply IH].
    apply quiet_bind; [apply quiet_missing_record|]. intros r. apply IH.
Qed.

(** ** The fan-out *)

Section AggregatorProperties.

Variable upstream : list request -> request -> transport.
Variable repr_container : json -> string.
Variables institute_url token : string.

Local Abbreviation gateway_at := (gateway upstream institute_url token).
Local Abbreviation assignments_call c :=
  (gateway upstream institute_url token
     (assignments_endpoint repr_container c) assignments_params).
Local Abbreviation request_of :=
  (assignments_request repr_container institute_url token).
Local Abbreviation requests_of :=
  (requests_for repr_container institute_url token).
Local Abbreviation responses_of :=
  (responses upstream repr_container institute_url token).
Local Abbreviation records_of :=
  (course_records upstream repr_container institute_url token).
Local Abbreviation courses_call :=
  (gateway upstream institute_url token "courses" courses_params).
Local Abbreviation first_request := (courses_request institute_url token).
Local Abbreviation run :=
  (get_missing_assignments upstream repr_container institute_url token).
Local Abbreviation loop :=
  (each_course upstream repr_container institute_url token).

(** A GET through the Gateway, as the Aggregator makes it. *)
Lemma gateway_call endpoint params h :
  canvas_request upstream institute_url token endpoint "GET" params JNull h
  = (Return (gateway_at endpoint params h),
     (h ++ [issued_request institute_url token endpoint GET params JNull])%list).
Proof. exact (canvas_request_run upstream _ _ _ "GET" GET params JNull h eq_refl). Qed.

Lemma envelope_of_failed t :
  success (envelope_of t) = false ->
  exists description, envelope_of t = failure description.
Proof.
  unfold envelope_of.
  destruct t as [k msg | r];
    [ | destruct (http_error_msg r); [ | destruct (resp_json r) ] ];
    cbn; intros E; try discriminate; eauto.
Qed.

(** One turn of the outer loop. *)
Lemma each_course_cons course rest acc h :
  has_key "id" course = true ->
  loop (course :: rest) acc h
  = (let h' := (h ++ [request_of course])%list in
     if success (assignments_call course h) then
       match Py.iterate (data (assignments_call course h)) with
       | Return assignments =>
           match filter_missing course assignments acc with
           | Return acc' => loop rest acc' h'
           | Raise e => (Raise e, h')
           end
       | Raise e => (Raise e, h')
       end
     else loop rest acc h').
Proof.
  intros Hid. cbn [each_course]. unfold mbind at 1. unfold lift at 1.
  rewrite (subscript_value_of _ _ Hid).
  unfold mbind at 1. rewrite gateway_call.
  fold (assignments_endpoint repr_container course).
  fold (request_of course).
  destruct (success (assignments_call course h)); cbn [negb]; [|reflexivity].
  unfold mbind at 1. unfold lift at 1.
  destruct (Py.iterate (data (assignments_call course h))) as [l|e]; [|reflexivity].
  unfold mbind at 1. unfold lift at 1.
  destruct (filter_missing course l acc); reflexivity.
Qed.

Lemma course_records_cons course rest h :
  records_of (course :: rest) h
  = (contribution course (assignments_call course h)
     ++ records_of rest (h ++ [request_of course]))%list.
Proof. reflexivity. Qed.


(** The outer loop on well-shaped data: every course is called once, in
    order, and the records are those of the design. *)
Lemma each_course_spec courses :
  forall acc h,
    forallb course_ok courses = true ->
    forallb payload_ok (responses_of courses h) = true ->
    loop courses acc h
    = (Return (acc ++ records_of courses h)%list, (h ++ requests_of courses)%list).
Proof.
  induction courses as [|c rest IH]; intros acc h Hcs Hps.
  - cbn. now rewrite !app_nil_r.
  - cbn [forallb] in Hcs. apply andb_true_iff in Hcs. destruct Hcs as [Hc Hrest].
    cbn [responses forallb] in Hps. apply andb_true_iff in Hps.
    destruct Hps as [Hp Hps].
    assert (Hid : has_key "id" c = true)
      by (unfold course_ok in Hc; apply andb_true_iff in Hc; tauto).
    rewrite (each_course_cons _ _ _ _ Hid), course_records_cons. cbn zeta.
    unfold payload_ok in Hp. unfold contribution.
    destruct (success (assignments_call c h)).
    + destruct (data (assignments_call c h)) as [ | | | | | l | ];
        try discriminate.
      cbn [Py.iterate]. rewrite (filter_missing_spec _ _ Hc Hp).
      rewrite (IH _ _ Hrest Hps). cbn [requests_for map].
      now rewrite <- !app_assoc.
    + rewrite (IH _ _ Hrest Hps). cbn [requests_for map app].
      now rewrite <- !app_assoc.
Qed.

(** The whole Aggregator on well-shaped data. *)
Lemma aggregate_run h courses :
  success (courses_call h) = true ->
  data (courses_call h) = JList courses ->
  forallb course_ok courses = true ->
  forallb payload_ok (responses_of courses (h ++ [first_request])) = true ->
  run h
  = (Return (mkCanvasResponse true
               (JList (records_of courses (h ++ [first_request]))) None),
     ((h ++ [first_request]) ++ requests_of courses)%list).
Proof.
  intros Hok Hdata Hcs Hps.
  unfold get_missing_assignments. unfold mbind at 1.
  rewrite gateway_call. fold first_request. rewrite Hok. cbn [negb].
  unfold mbind at 1. unfold lift at 1. rewrite Hdata. cbn [Py.iterate].
  unfold mbind at 1. rewrite (each_course_spec _ _ _ Hcs Hps). reflexivity.
Qed.

(** The loop raises only what the pure fragment raises. *)
Lemma each_course_quiet courses :
  forall acc h e h',
    loop courses acc h = (Raise e, h') -> is_RequestException e = false.
Proof.
  induction courses as [|c rest IH]; intros acc h e h'.
  - cbn. intros [=].
  - cbn [each_course]. unfold mbind at 1. unfold lift at 1.
    destruct (Py.subscript c "id") as [cid|e0] eqn:Hid.
    + unfold mbind at 1. rewrite gateway_call.
      destruct (success (gateway_at _ _ h)); cbn [negb]; [|apply IH].
      unfold mbind at 1. unfold lift at 1.
      destruct (Py.iterate _) as [l|e1] eqn:Hit.
      * unfold mbind at 1. unfold lift at 1.
        destruct (filter_missing c l acc) as [acc'|e2] eqn:Hf; [apply IH|].
        intros [= <- _]. apply (quiet_filter_missing _ _ _ _ Hf).
      * intros [= <- _]. apply (quiet_iterate _ _ Hit).
    + intros [= <- _]. apply (quiet_subscript _ _ _ Hid).
Qed.

(** Whatever the payloads, a run that gets the course list does not return
    a failure, and what it raises is no exception of the HTTP library. *)
Lemma aggregate_never_fails h :
  success (courses_call h) = true ->
  match fst (run h) with
  | Return env =>
      success env = true /\ error env = None /\ exists l, data env = JList l
  | Raise e => is_RequestException e = false
  end.
Proof.
  intros Hok.
  unfold get_missing_assignments. unfold mbind at 1.
  rewrite gateway_call. rewrite Hok. cbn [negb].
  unfold mbind at 1. unfold lift at 1.
  destruct (Py.iterate (data (courses_call h))) as [cs|e] eqn:Hit;
    [|apply (quiet_iterate _ _ Hit)].
  unfold mbind at 1.
  destruct (loop cs [] _) as [[l|e] h'] eqn:Hloop; cbn; eauto.
  apply (each_course_quiet _ _ _ _ _ Hloop).
Qed.

(** C2, as the code has it.  Once the course list has been fetched the
    Aggregator never returns a failure: a run that returns gives success,
    no error and a list, and a run that raises raises no exception of the
    HTTP library.  The run does return when the course list is a list of
    well-shaped courses and every successful per-course payload is a list
    of well-shaped assignments. *)
Theorem no_failure_after_course_list h :
  success (courses_call h) = true ->
  match fst (run h) with
  | Return env =>
      success env = true /\ error env = None /\ exists l, data env = JList l
  | Raise e => is_RequestException e = false
  end
  /\
  forall courses,
    data (courses_call h) = JList courses ->
    forallb course_ok courses = true ->
    forallb payload_ok (responses_of courses (h ++ [first_request])) = true ->
    exists l, fst (run h) = Return (mkCanvasResponse true (JList l) None).
Proof.
  intros Hok. split.
  - apply aggregate_never_fails, Hok.
  - intros courses Hdata Hcs Hps.
    rewrite (aggregate_run _ _ Hok Hdata Hcs Hps). cbn [fst]. eauto.
Qed.

(** C3.  When the course-list call comes back as a failure with error [E],
    the Aggregator returns that very envelope, which is
    [{success: false, data: null, error: E}], and the course-list request
    is the only request of the run. *)
Theorem fail_fast_on_course_list h env h' E :
  canvas_request upstream institute_url token "courses" "GET" courses_params
    JNull h = (Return env, h') ->
  success env = false ->
  error env = Some E ->
  run h = (Return env, (h ++ [first_request])%list)
  /\ env = mkCanvasResponse false JNull (Some E).
Proof.
  rewrite gateway_call. intros Hcall Hfail Herr.
  injection Hcall as Henv Hh. subst env h'.
  split.
  - unfold get_missing_assignments. unfold mbind at 1.
    rewrite gateway_call, Hfail. reflexivity.
  - unfold gateway in *. destruct (envelope_of_failed _ Hfail) as [d Hd].
    rewrite Hd in *. cbn in Herr. injection Herr as ->. reflexivity.
Qed.



End AggregatorProperties.

(** C1, as the code has it.  In a well-shaped payload an assignment yields
    a record exactly when it carries a [submission] object whose [missing]
    flag is true; a submission without the flag does not qualify and raises
    nothing.  For assignments 1 (missing), 2 (not missing) and 3 (no
    submission), the first one carrying the [name] and [points_possible]
    its record needs, the one record is that of assignment 1. *)
Theorem missing_filter_correct course :
  course_ok course = true ->
  (forall assignments acc,
     forallb assignment_ok assignments = true ->
     filter_missing course assignments acc
     = Return (acc ++ map (record_of course) (filter qualifying assignments))%list)
  /\
  (forall kv sub,
     Py.dict_lookup "submission" kv = Some (JObj sub) ->
     Py.dict_lookup "missing" sub = None ->
     is_missing (JObj kv) = Return false)
  /\
  (forall extra1 extra2 extra3,
     has_key "name" (JObj extra1) = true ->
     has_key "points_possible" (JObj extra1) = true ->
     Py.dict_lookup "submission" extra3 = None ->
     filter_missing course
       [Scenario.p4_first extra1; Scenario.p4_second extra2; Scenario.p4_third extra3]
       []
     = Return [record_of course (Scenario.p4_first extra1)]
     /\ value_of "assignment_id" (record_of course (Scenario.p4_first extra1))
        = JInt 1).
Proof.
  intros Hc. split; [|split].
  - intros assignments acc Hall. apply (filter_missing_spec _ _ Hc Hall).
  - intros kv sub Hsub Hflag. unfold is_missing. cbn.
    rewrite Hsub. cbn. rewrite Hflag. reflexivity.
  - intros extra1 extra2 extra3 Hn Hp H3. split; [|reflexivity].
    rewrite (filter_missing_spec course); [ | exact Hc | ].
    + cbn. rewrite H3. reflexivity.
    + unfold has_key in Hn, Hp.
      cbn. unfold assignment_ok, submission_ok, qualifying, has_key. cbn.
      rewrite H3.
      destruct (Py.dict_lookup "name" extra1); [|discriminate].
      destruct (Py.dict_lookup "points_possible" extra1); [|discriminate].
      reflexivity.
Qed.

(** ** Determinism *)

Section Determinism.

Variables upstream1 upstream2 : list request -> request -> transport.
Variable repr_container : json -> string.
Variables institute_url token : string.

(** The two upstreams are the same as far as envelopes can tell. *)
Hypothesis same_envelopes :
  forall endpoint params h,
    gateway upstream1 institute_url token endpoint params h
    = gateway upstream2 institute_url token endpoint params h.

Lemma each_course_same courses :
  forall acc h,
    each_course upstream1 repr_container institute_url token courses acc h
    = each_course upstream2 repr_container institute_url token courses acc h.
Proof.
  induction courses as [|c rest IH]; intros acc h; [reflexivity|].
  cbn [each_course]. unfold mbind, lift.
  destruct (Py.subscript c "id") as [cid|e]; [|reflexivity].
  rewrite !gateway_call, same_envelopes.
  destruct (success (gateway upstream2 institute_url token _ _ h));
    cbn [negb]; [|apply IH].
  destruct (Py.iterate _) as [l|e]; [|reflexivity].
  destruct (filter_missing c l acc); [apply IH | reflexivity].
Qed.

(** C10.  The run of the Aggregator is a function of the envelopes the
    Gateway gives: two upstreams that give the same envelopes give the same
    result, and the same requests are issued. *)
Theorem aggregator_deterministic h :
  get_missing_assignments upstream1 repr_container institute_url token h
  = get_missing_assignments upstream2 repr_container institute_url token h.
Proof.
  unfold get_missing_assignments, mbind, lift.
  rewrite !gateway_call, same_envelopes.
  destruct (success (gateway upstream2 institute_url token _ _ h));
    cbn [negb]; [|reflexivity].
  destruct (Py.iterate _) as [cs|e]; [|reflexivity].
  rewrite each_course_same. reflexivity.
Qed.

End Determinism.

(** * The properties at work on concrete upstreams *)

Import Scenario.

(** The claim of C2 as the design words it fails: the course list is
    fetched, the one assignment qualifies and has no [points_possible], and
    the run raises instead of returning an envelope. *)
Lemma missing_points_possible_raises :
  success (gateway no_points institute token "courses" courses_params []) = true
  /\ fst (get_missing_assignments no_points no_repr institute token [])
     = Raise (KeyError "points_possible").
Proof. split; vm_compute; reflexivity. Qed.

(** P4 with the three assignments exactly as C1 lists them: the first one
    qualifies, the record needs its [name], and the run raises. *)
Lemma p4_as_written_raises :
  success (gateway p4_literal institute token "courses" courses_params []) = true
  /\ success (gateway p4_literal institute token "courses/10/assignments"
               assignments_params [courses_request institute token]) = true
  /\ fst (get_missing_assignments p4_literal no_repr institute token [])
     = Raise (KeyError "name").
Proof. repeat split; vm_compute; reflexivity. Qed.

Lemma missing_filter_correct_witness :
  filter_missing math
    [p4_first p4_fields; p4_second p4_fields; p4_third p4_fields] []
  = Return [record_of math (p4_first p4_fields)]
  /\ value_of "assignment_id" (record_of math (p4_first p4_fields)) = JInt 1.
Proof.
  apply (proj2 (proj2 (missing_filter_correct math eq_refl)));
    reflexivity.
Defined.

Lemma no_failure_after_course_list_witness :
  exists l,
    fst (get_missing_assignments one_course no_repr institute token [])
    = Return (mkCanvasResponse true (JList l) None).
Proof.
  apply (proj2 (no_failure_after_course_list one_course no_repr institute
                  token [] eq_refl) [math]); reflexivity.
Defined.

Lemma fail_fast_on_course_list_witness :
  get_missing_assignments unreachable no_repr institute token []
  = (Return (failure "connection refused"), [courses_request institute token])
  /\ failure "connection refused"
     = mkCanvasResponse false JNull (Some "connection refused").
Proof.
  apply (fail_fast_on_course_list unreachable no_repr institute token []
           (failure "connection refused") [courses_request institute token]
           "connection refused"); reflexivity.
Defined.



Lemma one_course_created_same_envelopes endpoint params h :
  gateway one_course institute token endpoint params h
  = gateway one_course_created institute token endpoint params h.
Proof.
  unfold gateway, one_course_created, one_course, serve.
  destruct (Py.dict_lookup _ _); reflexivity.
Qed.

Lemma aggregator_deterministic_witness :
  get_missing_assignments one_course no_repr institute token []
  = get_missing_assignments one_course_created no_repr institute token [].
Proof.
  apply (aggregator_deterministic one_course one_course_created no_repr
           institute token one_course_created_same_envelopes).
Defined.

(** * The other endpoints *)

(** ** Decimal text of an integer *)

Lemma to_int_not_nil z :
  Z.to_int z <> Decimal.Pos Decimal.Nil /\ Z.to_int z <> Decimal.Neg Decimal.Nil.
Proof.
  split; intros H; pose proof (DecimalZ.of_to z) as Hz; rewrite H in Hz;
    cbn in Hz; subst z; discriminate H.
Qed.

Lemma string_of_Z_inj a b : string_of_Z a = string_of_Z b -> a = b.
Proof.
  unfold string_of_Z. intros H.
  destruct (to_int_not_nil a) as [Ha1 Ha2].
  destruct (to_int_not_nil b) as [Hb1 Hb2].
  apply (f_equal NilZero.int_of_string) in H.
  rewrite !NilZero.isi in H by assumption.
  injection H as H. apply (f_equal Z.of_int) in H.
  now rewrite !DecimalZ.of_to in H.
Qed.

Lemma digits_no_slash d : has_char "/" (NilEmpty.string_of_uint d) = false.
Proof. induction d; cbn; auto. Qed.

Lemma string_of_Z_no_slash z : has_char "/" (string_of_Z z) = false.
Proof.
  unfold string_of_Z.
  destruct (Z.to_int z) as [d|d]; cbn;
    destruct d; cbn; auto using digits_no_slash.
Qed.

Lemma append_empty_r s : (s ++ "")%string = s.
Proof. induction s as [|c s IH]; cbn; [reflexivity | now rewrite IH]. Qed.

Lemma append_inv_head s a b : (s ++ a)%string = (s ++ b)%string -> a = b.
Proof. induction s as [|c s IH]; cbn; [auto | intros [= H]; auto]. Qed.

(** Two texts without a slash, each followed by a slash and more, are cut
    at the same place. *)
Lemma cut_at_slash s1 s2 x y :
  has_char "/" s1 = false -> has_char "/" s2 = false ->
  (s1 ++ String "/" x)%string = (s2 ++ String "/" y)%string ->
  s1 = s2 /\ x = y.
Proof.
  revert s2. induction s1 as [|c s1 IH]; intros [|c2 s2]; cbn.
  - intros _ _ [= ->]. auto.
  - intros _ H [= <- _]. cbn in H. discriminate H.
  - intros H _ [= -> _]. cbn in H. discriminate H.
  - intros H1 H2 [= -> E].
    apply orb_false_iff in H1, H2.
    destruct (IH s2 (proj2 H1) (proj2 H2) E) as [-> ->]. auto.
Qed.

Lemma no_slash_not_cut s1 s2 x :
  has_char "/" s1 = false -> s1 <> (s2 ++ String "/" x)%string.
Proof.
  revert s2. induction s1 as [|c s1 IH]; intros [|c2 s2]; cbn; intros H E;
    try discriminate E.
  - injection E as -> _. cbn in H. discriminate H.
  - injection E as -> E. apply orb_false_iff in H. apply (IH s2 (proj2 H) E).
Qed.

(** ** Forwarding *)

Section EndpointProperties.

Variable upstream : list request -> request -> transport.
Variables institute_url token : string.

(** One run of a forwarding route. *)
Lemma handle_run r h :
  handle upstream r institute_url token h
  = (Return
       (envelope_of
          (upstream h
             (mkRequest GET (institute_url ++ "/api/v1" ++ route_path r)
                [("Authorization", "Bearer " ++ token)] (route_query r) JNull))),
     (h ++ [mkRequest GET (institute_url ++ "/api/v1" ++ route_path r)%string
              [("Authorization", ("Bearer " ++ token)%string)]
              (route_query r) JNull])%list).
Proof.
  destruct r as [es | c | c [[|x l]|] | c a | c | c m | c | c | c];
    cbn [handle route_path route_query];
    unfold get_courses, get_course, get_assignments, get_assignment,
      get_modules, get_module_items, get_course_files, get_announcements,
      get_grades;
    cbn [optional_list Py.truthy map dict_setitem];
    rewrite (canvas_request_run upstream _ _ _ "GET" GET _ _ h eq_refl);
    reflexivity.
Qed.


Lemma route_path_tail r :
  route_path r
  = match route_tail r with
    | None => "/courses"
    | Some (c, t) => "/courses/" ++ string_of_Z c ++ t
    end.
Proof.
  destruct r; cbn [route_path route_tail]; try reflexivity.
  now rewrite append_empty_r.
Qed.

Lemma route_tail_shape r c t :
  route_tail r = Some (c, t) -> t = "" \/ exists x, t = String "/" x.
Proof.
  destruct r; cbn; intros [= <- <-]; eauto.
Qed.

Lemma route_path_inj r1 r2 :
  route_path r1 = route_path r2 -> route_tail r1 = route_tail r2.
Proof.
  rewrite !route_path_tail.
  destruct (route_tail r1) as [[c1 t1]|] eqn:E1;
    destruct (route_tail r2) as [[c2 t2]|] eqn:E2; intros E;
    try reflexivity;
    try (apply (append_inv_head "/courses") in E; discriminate E).
  apply (append_inv_head "/courses/") in E.
  pose proof (string_of_Z_no_slash c1) as N1.
  pose proof (string_of_Z_no_slash c2) as N2.
  destruct (route_tail_shape _ _ _ E1) as [-> | [x1 ->]];
    destruct (route_tail_shape _ _ _ E2) as [-> | [x2 ->]].
  - rewrite !append_empty_r in E. apply string_of_Z_inj in E. now subst.
  - rewrite append_empty_r in E. now apply no_slash_not_cut in E.
  - rewrite append_empty_r in E. symmetry in E.
    now apply no_slash_not_cut in E.
  - destruct (cut_at_slash _ _ _ _ N1 N2 E) as [Hc ->].
    apply string_of_Z_inj in Hc. now subst.
Qed.

Lemma route_tail_resource r1 r2 :
  route_tail r1 = route_tail r2 -> resource_of r1 = resource_of r2.
Proof.
  destruct r1, r2; cbn [route_tail resource_of]; intros E; cbn in E;
    try discriminate E; try reflexivity;
    first [ injection E as -> E | injection E as ->; reflexivity ].
  - apply string_of_Z_inj in E. now subst.
  - destruct (cut_at_slash _ _ "items" "items"
                (string_of_Z_no_slash _) (string_of_Z_no_slash _) E) as [Hm _].
    apply string_of_Z_inj in Hm. now subst.
Qed.

(** X2.  Two routes whose requests go to the same URL name the same
    upstream resource: the same route with the same course and the same
    assignment or module. *)
Theorem same_url_same_resource r1 r2 h1 h2 rq1 rq2 :
  snd (handle upstream r1 institute_url token h1) = (h1 ++ [rq1])%list ->
  snd (handle upstream r2 institute_url token h2) = (h2 ++ [rq2])%list ->
  req_url rq1 = req_url rq2 ->
  resource_of r1 = resource_of r2.
Proof.
  rewrite !handle_run. cbn [snd].
  intros H1 H2 E.
  apply app_inv_head in H1, H2. injection H1 as <-. injection H2 as <-.
  cbn [req_url] in E.
  apply append_inv_head in E. apply (append_inv_head "/api/v1") in E.
  apply route_tail_resource, route_path_inj, E.
Qed.

End EndpointProperties.

(** ** The Gateway, further *)

Section GatewayFurther.

Variable upstream : list request -> request -> transport.
Variables institute_url token endpoint : string.



(** X4.  An argument the chosen verb does not send has no influence on the
    run: the body with GET, the query parameters with POST and PUT, both
    with DELETE. *)
Theorem unsent_arguments_are_ignored h :
  (forall params body body',
     canvas_request upstream institute_url token endpoint "GET" params body h
     = canvas_request upstream institute_url token endpoint "GET" params body' h)
  /\
  (forall params params' body,
     canvas_request upstream institute_url token endpoint "POST" params body h
     = canvas_request upstream institute_url token endpoint "POST" params' body h)
  /\
  (forall params params' body,
     canvas_request upstream institute_url token endpoint "PUT" params body h
     = canvas_request upstream institute_url token endpoint "PUT" params' body h)
  /\
  (forall params params' body body',
     canvas_request upstream institute_url token endpoint "DELETE" params body h
     = canvas_request upstream institute_url token endpoint "DELETE" params' body' h).
Proof.
  repeat split; intros;
    rewrite !(canvas_request_run upstream _ _ _ _ _ _ _ h eq_refl);
    reflexivity.
Qed.

End GatewayFurther.

(** ** The Aggregator on payloads of any shape *)

Lemma bind_returns {A B} (r : result A) (k : A -> result B) b :
  Py.bind r k = Return b -> exists a, r = Return a /\ k a = Return b.
Proof. destruct r as [a|e]; cbn; [eauto | discriminate]. Qed.

Lemma subscript_returns v key x :
  Py.subscript v key = Return x -> x = value_of key v.
Proof.
  destruct v as [ | | | | | | kv]; cbn; try discriminate.
  destruct (Py.dict_lookup key kv); [intros [= <-]; reflexivity | discriminate].
Qed.

Lemma get_returns v key x :
  Py.get v key JNull = Return x -> x = value_of key v.
Proof.
  destruct v as [ | | | | | | kv]; cbn; try discriminate.
  destruct (Py.dict_lookup key kv); intros [= <-]; reflexivity.
Qed.

Lemma is_missing_returns assignment b :
  is_missing assignment = Return b -> b = passes assignment.
Proof.
  unfold is_missing, passes.
  destruct assignment as [ | | | | | l | kv]; cbn; try discriminate.
  - destruct (Py.substring_of "submission" s); cbn; [discriminate|].
    intros [= <-]; reflexivity.
  - destruct (existsb (Py.is_str "submission") l); cbn; [discriminate|].
    intros [= <-]; reflexivity.
  - destruct (Py.dict_lookup "submission" kv) as [sub|]; cbn;
      [|intros [= <-]; reflexivity].
    destruct sub as [ | | | | | | fields]; cbn; try discriminate.
    destruct (Py.dict_lookup "missing" fields); cbn; intros [= <-]; reflexivity.
Qed.

Lemma missing_record_returns course assignment r :
  missing_record course assignment = Return r -> r = record_of course assignment.
Proof.
  unfold missing_record, record_of. intros H.
  apply bind_returns in H. destruct H as (cn & Hcn & H).
  apply bind_returns in H. destruct H as (ci & Hci & H).
  apply bind_returns in H. destruct H as (an & Han & H).
  apply bind_returns in H. destruct H as (ai & Hai & H).
  apply bind_returns in H. destruct H as (dd & Hdd & H).
  apply bind_returns in H. destruct H as (pp & Hpp & H).
  injection H as <-.
  apply subscript_returns in Hcn, Hci, Han, Hai, Hpp. apply get_returns in Hdd.
  now subst.
Qed.

Lemma filter_missing_returns course assignments :
  forall acc res,
    filter_missing course assignments acc = Return res ->
    res = (acc ++ map (record_of course) (filter passes assignments))%list.
Proof.
  induction assignments as [|a rest IH]; intros acc res; cbn [filter_missing filter].
  - intros [= <-]. cbn. now rewrite app_nil_r.
  - intros H. apply bind_returns in H. destruct H as (b & Hb & H).
    apply is_missing_returns in Hb. subst b.
    destruct (passes a).
    + apply bind_returns in H. destruct H as (r & Hr & H).
      apply missing_record_returns in Hr. subst r.
      apply IH in H. subst res. cbn [map]. now rewrite <- app_assoc.
    + apply IH, H.
Qed.

Section AggregatorFurther.

Variable upstream : list request -> request -> transport.
Variable repr_container : json -> string.
Variables institute_url token : string.

Local Abbreviation assignments_call c :=
  (gateway upstream institute_url token
     (assignments_endpoint repr_container c) assignments_params).
Local Abbreviation request_of :=
  (assignments_request repr_container institute_url token).
Local Abbreviation requests_of :=
  (requests_for repr_container institute_url token).
Local Abbreviation responses_of :=
  (responses upstream repr_container institute_url token).
Local Abbreviation courses_call :=
  (gateway upstream institute_url token "courses" courses_params).
Local Abbreviation first_request := (courses_request institute_url token).
Local Abbreviation run :=
  (get_missing_assignments upstream repr_container institute_url token).
Local Abbreviation loop :=
  (each_course upstream repr_container institute_url token).

(** What the loop has done when it returns. *)
Lemma each_course_returns courses :
  forall acc h res h',
    loop courses acc h = (Return res, h') ->
    res = (acc ++ flat_map (fun ce => records_any (fst ce) (snd ce))
                    (combine courses (responses_of courses h)))%list
    /\ h' = (h ++ requests_of courses)%list.
Proof.
  induction courses as [|c rest IH]; intros acc h res h'.
  - cbn. intros [= <- <-]. now rewrite !app_nil_r.
  - cbn [each_course]. unfold mbind at 1. unfold lift at 1.
    destruct (Py.subscript c "id") as [cid|e] eqn:Hid; [|discriminate].
    apply subscript_returns in Hid. subst cid.
    unfold mbind at 1. rewrite gateway_call.
    fold (assignments_endpoint repr_container c). fold (request_of c).
    cbn [responses combine flat_map fst snd requests_for map].
    unfold records_any at 1.
    destruct (success (assignments_call c h)); cbn [negb].
    + unfold mbind at 1. unfold lift at 1.
      destruct (Py.iterate (data (assignments_call c h))) as [l|e];
        [|discriminate].
      unfold mbind at 1. unfold lift at 1.
      destruct (filter_missing c l acc) as [acc'|e] eqn:Hf; [|discriminate].
      apply filter_missing_returns in Hf. subst acc'.
      intros H. apply IH in H. destruct H as [-> ->].
      now rewrite <- !app_assoc.
    + intros H. apply IH in H. destruct H as [-> ->].
      now rewrite <- !app_assoc.
Qed.

(** The requests of the loop, whether it returns or raises. *)
Lemma each_course_requests courses :
  forall acc h,
    exists sent,
      snd (loop courses acc h) = (h ++ sent)%list
      /\ Forall (per_course_request institute_url token) sent
      /\ (length sent <= length courses)%nat.
Proof.
  induction courses as [|c rest IH]; intros acc h.
  - exists []. cbn. rewrite app_nil_r. auto.
  - cbn [each_course]. unfold mbind at 1. unfold lift at 1.
    destruct (Py.subscript c "id") as [cid|e].
    + unfold mbind at 1. rewrite gateway_call.
      assert (Hrq : per_course_request institute_url token
                      (issued_request institute_url token
                         ("courses/" ++ py_str repr_container cid ++ "/assignments")
                         GET assignments_params JNull))
        by (eexists; reflexivity).
      set (rq := issued_request _ _ _ _ _ _) in *.
      assert (Hgo : forall acc',
                 exists sent,
                   snd (loop rest acc' (h ++ [rq])%list) = (h ++ sent)%list
                   /\ Forall (per_course_request institute_url token) sent
                   /\ (length sent <= length (c :: rest))%nat).
      { intros acc'. destruct (IH acc' (h ++ [rq])%list) as (sent & Hs & Hall & Hlen).
        exists (rq :: sent). rewrite Hs, <- app_assoc. cbn. auto with arith. }
      assert (Hstop : exists sent,
                 (h ++ [rq])%list = (h ++ sent)%list
                 /\ Forall (per_course_request institute_url token) sent
                 /\ (length sent <= length (c :: rest))%nat).
      { exists [rq]. cbn. auto with arith. }
      destruct (success (gateway upstream institute_url token _ _ h));
        cbn [negb]; [|apply Hgo].
      unfold mbind at 1. unfold lift at 1.
      destruct (Py.iterate _) as [l|e]; [|exact Hstop].
      unfold mbind at 1. unfold lift at 1.
      destruct (filter_missing c l acc) as [acc'|e]; [apply Hgo | exact Hstop].
    + exists []. cbn. rewrite app_nil_r. auto with arith.
Qed.

Lemma records_are_records course items :
  Forall is_record (map (record_of course) items).
Proof.
  induction items as [|a rest IH]; cbn; constructor; [|exact IH].
  eexists. split; reflexivity.
Qed.

Lemma records_any_are_records pairs :
  Forall is_record
    (flat_map (fun ce : json * CanvasResponse => records_any (fst ce) (snd ce))
       pairs).
Proof.
  induction pairs as [|[c e] rest IH]; cbn [flat_map]; [constructor|].
  apply Forall_app. split; [|exact IH].
  unfold records_any. cbn [fst snd].
  destruct (success e); [|constructor].
  destruct (Py.iterate (data e)); [apply records_are_records | constructor].
Qed.

(** What a run that returns a success has done. *)
Lemma aggregate_returns h env h' :
  run h = (Return env, h') ->
  success env = true ->
  exists courses,
    Py.iterate (data (courses_call h)) = Return courses
    /\ env = mkCanvasResponse true
               (JList
                  (flat_map (fun ce => records_any (fst ce) (snd ce))
                     (combine courses
                        (responses_of courses (h ++ [first_request])))))
               None
    /\ h' = ((h ++ [first_request]) ++ requests_of courses)%list.
Proof.
  unfold get_missing_assignments. unfold mbind at 1.
  rewrite gateway_call. fold first_request.
  destruct (success (courses_call h)) eqn:Hok; cbn [negb].
  - unfold mbind at 1. unfold lift at 1.
    destruct (Py.iterate (data (courses_call h))) as [cs|e]; [|discriminate].
    unfold mbind at 1.
    destruct (loop cs [] _) as [[res|e] h''] eqn:Hloop; [|discriminate].
    apply each_course_returns in Hloop. destruct Hloop as [-> ->].
    intros [= <- <-] _. exists cs. auto.
  - intros [= <- <-] Hs. congruence.
Qed.

(** X5.  Whatever the shapes of the payloads, a run that returns a success
    has called every course of the list once, in order, and its data is
    the list, in course order and then payload order, of the records of
    the items that pass the test of the code: objects whose [submission]
    is an object with a [missing] entry that Python counts as true (so [1]
    or a non-empty text pass, [0], null and an absent flag do not).  A
    successful payload that is an object or a text adds no record. *)
Theorem success_on_any_payload h env h' :
  run h = (Return env, h') ->
  success env = true ->
  exists courses,
    Py.iterate (data (courses_call h)) = Return courses
    /\ data env
       = JList
           (flat_map
              (fun ce =>
                 if success (snd ce) then
                   match Py.iterate (data (snd ce)) with
                   | Return items => map (record_of (fst ce)) (filter passes items)
                   | Raise _ => []
                   end
                 else [])
              (combine courses (responses_of courses (h ++ [first_request]))))
    /\ error env = None
    /\ h' = ((h ++ [first_request]) ++ requests_of courses)%list.
Proof.
  intros Hrun Hs.
  destruct (aggregate_returns _ _ _ Hrun Hs) as (cs & Hit & -> & ->).
  exists cs. auto.
Qed.

(** X6.  Every element of the data of a successful run is an object with
    exactly the six keys of a record, in the order [course_name],
    [course_id], [assignment_name], [assignment_id], [due_date],
    [points_possible]. *)
Theorem records_have_the_six_keys h env :
  fst (run h) = Return env ->
  success env = true ->
  exists records, data env = JList records /\ Forall is_record records.
Proof.
  destruct (run h) as [r h'] eqn:Hrun. cbn [fst]. intros -> Hs.
  destruct (aggregate_returns _ _ _ Hrun Hs) as (cs & _ & -> & _).
  eexists. split; [reflexivity|]. apply records_any_are_records.
Qed.

(** X7.  Whether it returns or raises, a run sends the course-list request
    first and then nothing but GET requests for the assignments of a
    course, with the bearer header, [include=submission] and no body; there
    are no more of them than courses in the list. *)
Theorem only_course_and_assignment_gets h :
  exists sent,
    snd (run h) = (h ++ first_request :: sent)%list
    /\ Forall (per_course_request institute_url token) sent
    /\ forall courses,
         Py.iterate (data (courses_call h)) = Return courses ->
         (length sent <= length courses)%nat.
Proof.
  unfold get_missing_assignments. unfold mbind at 1.
  rewrite gateway_call. fold first_request.
  destruct (success (courses_call h)); cbn [negb].
  - unfold mbind at 1. unfold lift at 1.
    destruct (Py.iterate (data (courses_call h))) as [cs|e].
    + unfold mbind at 1.
      destruct (each_course_requests cs [] (h ++ [first_request])%list)
        as (sent & Hs & Hall & Hlen).
      exists sent. split; [|split].
      * destruct (loop cs [] _) as [[res|e] h'']; cbn [snd] in *;
          rewrite Hs, <- app_assoc; reflexivity.
      * exact Hall.
      * intros cs' [= <-]. exact Hlen.
    + exists []. cbn. split; [reflexivity|]. split; [constructor|discriminate].
  - exists []. cbn. split; [reflexivity|]. split; [constructor|].
    intros; apply Nat.le_0_l.
Qed.


End AggregatorFurther.

(** ** The study guide *)

(** X9.  [generate_study_guide] sends nothing upstream and always answers
    with a success.  Its answer depends on the course id alone: the base
    address, the token, the module ids and the topic play no part, and two
    requests get the same answer exactly when they name the same course. *)
Theorem study_guide_depends_on_course_only request request'
    institute_url institute_url' token token' h h' :
  snd (generate_study_guide request institute_url token h) = h
  /\ (exists body,
        fst (generate_study_guide request institute_url token h)
        = Return (mkCanvasResponse true body None))
  /\ (fst (generate_study_guide request institute_url token h)
      = fst (generate_study_guide request' institute_url' token' h')
      <-> course_id request = course_id request').
Proof.
  split; [reflexivity|]. split; [eexists; reflexivity|].
  unfold generate_study_guide, ret. cbn [fst]. split.
  - intros [= E]. apply string_of_Z_inj, E.
  - intros ->. reflexivity.
Qed.

(** ** The further properties at work *)

Lemma same_url_same_resource_witness :
  resource_of (Assignments 10 (Some ["submission"]))
  = resource_of (Assignments 10 None).
Proof.
  apply (same_url_same_resource one_course institute token
           (Assignments 10 (Some ["submission"])) (Assignments 10 None) [] []
           (mkRequest GET "https://canvas.test/api/v1/courses/10/assignments"
              [("Authorization", "Bearer secret")] assignments_params JNull)
           (mkRequest GET "https://canvas.test/api/v1/courses/10/assignments"
              [("Authorization", "Bearer secret")] (JObj []) JNull));
    reflexivity.
Defined.


Lemma success_on_any_payload_witness :
  exists courses,
    Py.iterate
      (data (gateway three_courses institute token "courses" courses_params []))
    = Return courses
    /\ JList
         [record_of math hw1;
          record_of bio
            (assignment 300 "Lab" [("points_possible", JInt 5); missing true])]
       = JList
           (flat_map
              (fun ce =>
                 if success (snd ce) then
                   match Py.iterate (data (snd ce)) with
                   | Return items => map (record_of (fst ce)) (filter passes items)
                   | Raise _ => []
                   end
                 else [])
              (combine courses
                 (responses three_courses no_repr institute token courses
                    ([] ++ [courses_request institute token]))))
    /\ @None string = None
    /\ [courses_request institute token;
        assignments_request no_repr institute token math;
        assignments_request no_repr institute token art;
        assignments_request no_repr institute token bio]
       = (([] ++ [courses_request institute token])
          ++ requests_for no_repr institute token courses)%list.
Proof.
  exact (success_on_any_payload three_courses no_repr institute token []
           (mkCanvasResponse true
              (JList
                 [record_of math hw1;
                  record_of bio
                    (assignment 300 "Lab"
                       [("points_possible", JInt 5); missing true])])
              None)
           [courses_request institute token;
            assignments_request no_repr institute token math;
            assignments_request no_repr institute token art;
            assignments_request no_repr institute token bio]
           eq_refl eq_refl).
Defined.

Lemma records_have_the_six_keys_witness :
  exists records,
    JList [record_of math hw1] = JList records /\ Forall is_record records.
Proof.
  exact (records_have_the_six_keys one_course no_repr institute token []
           (mkCanvasResponse true (JList [record_of math hw1]) None)
           eq_refl eq_refl).
Defined.

Lemma only_course_and_assignment_gets_witness :
  exists sent,
    snd (get_missing_assignments no_points no_repr institute token [])
    = ([] ++ courses_request institute token :: sent)%list
    /\ Forall (per_course_request institute token) sent
    /\ (length sent <= 1)%nat.
Proof.
  destruct (only_course_and_assignment_gets no_points no_repr institute token [])
    as (sent & Hs & Hall & Hlen).
  exists sent. split; [exact Hs|]. split; [exact Hall|].
  apply (Hlen [math]). reflexivity.
Defined.


Lemma study_guide_depends_on_course_only_witness :
  fst (generate_study_guide (mkStudyGuideRequest 7 None None)
         institute token [])
  = fst (generate_study_guide (mkStudyGuideRequest 7 (Some [1%Z; 2%Z]) (Some "x"))
           "https://other.test" "other" [courses_request institute token]).
Proof.
  apply (proj2 (proj2 (study_guide_depends_on_course_only
                         (mkStudyGuideRequest 7 None None)
                         (mkStudyGuideRequest 7 (Some [1%Z; 2%Z]) (Some "x"))
                         institute "https://other.test" token "other"
                         [] [courses_request institute token]))).
  reflexivity.
Defined.

(** * The test script *)

Module TestApiProperties.

Import TestApi.

Lemma dict_lookup_setitem key v kv :
  Py.dict_lookup key (dict_setitem key v kv) = Some v.
Proof.
  induction kv as [|[k x] rest IH]; cbn.
  - now rewrite String.eqb_refl.
  - destruct (String.eqb key k) eqn:E; cbn; rewrite E; [reflexivity | exact IH].
Qed.

Lemma dict_lookup_setitem_other key key' v kv :
  key' <> key ->
  Py.dict_lookup key' (dict_setitem key v kv) = Py.dict_lookup key' kv.
Proof.
  intros Hne. induction kv as [|[k x] rest IH]; cbn.
  - apply String.eqb_neq in Hne. now rewrite Hne.
  - destruct (String.eqb key k) eqn:E; cbn.
    + apply String.eqb_eq in E. subst k.
      apply String.eqb_neq in Hne. now rewrite Hne.
    + destruct (String.eqb key' k); [reflexivity | exact IH].
Qed.

Section ScriptProperties.

Variable server : list request -> request -> transport.
Variable repr_container : json -> string.
Variable pformat : json -> string.
Variable response_text : response -> string.
Variable error_text : error -> string.
Variable TOKEN : string.

Local Abbreviation test_endpoint_at :=
  (test_endpoint server repr_container pformat response_text error_text TOKEN).
Local Abbreviation run_tests_at :=
  (run_tests server repr_container pformat response_text error_text TOKEN).

Lemma silent_pure {A} (a : A) : silent (pure a).
Proof. intros w. exists (Done a), []. unfold pure. now rewrite app_nil_r; destruct w. Qed.

Lemma silent_fail {A} e : silent (@fail A e).
Proof. intros w. exists (Failed e), []. unfold fail. now rewrite app_nil_r; destruct w. Qed.

Lemma silent_print text : silent (print text).
Proof. intros w. exists (Done tt), [text]. reflexivity. Qed.

Lemma silent_eval {A} (r : result A) : silent (eval r).
Proof. destruct r; [apply silent_pure | apply silent_fail]. Qed.

Lemma silent_bind {A B} (m : IO A) (k : A -> IO B) :
  silent m -> (forall a, silent (k a)) -> silent (bind m k).
Proof.
  intros Hm Hk w. unfold bind.
  destruct (Hm w) as (o & out & ->).
  destruct o as [a|e].
  - destruct (Hk a (mkWorld (sent w) (printed w ++ out)%list)) as (o' & out' & ->).
    exists o', (out ++ out')%list. cbn. now rewrite app_assoc.
  - exists (Failed e), out. reflexivity.
Qed.

Lemma silent_json r : silent (call (response_json r)).
Proof.
  intros w. unfold call, response_json.
  destruct (resp_json r) as [msg|v]; cbn.
  - exists (Failed (Raised (RequestException JSONDecodeError msg))), [].
    now rewrite app_nil_r.
  - exists (Done v), []. now rewrite app_nil_r.
Qed.

Lemma silent_report result : silent (report repr_container pformat result).
Proof.
  unfold report.
  apply silent_bind; [apply silent_eval | intros ok].
  apply silent_bind; [apply silent_print | intros _].
  destruct (Py.truthy ok).
  - apply silent_bind; [apply silent_eval | intros payload].
    destruct payload as [ | | | | | items | ];
      try (apply silent_bind; [apply silent_print | intros _; apply silent_print]).
    apply silent_bind; [apply silent_print | intros _].
    destruct items; [apply silent_pure|].
    apply silent_bind; [apply silent_print | intros _; apply silent_print].
  - apply silent_bind; [apply silent_eval | intros e; apply silent_print].
Qed.

(** What follows the request in [test_endpoint], once a response is in. *)
Lemma silent_after_response r :
  silent
    (bind (print ("Status Code: " ++ string_of_Z (status_code r)))
       (fun _ =>
          if Z.eqb (status_code r) 200 then
            bind (call (response_json r)) (report repr_container pformat)
          else print ("Error: " ++ response_text r))).
Proof.
  apply silent_bind; [apply silent_print | intros _].
  destruct (Z.eqb (status_code r) 200); [|apply silent_print].
  apply silent_bind; [apply silent_json | intros v; apply silent_report].
Qed.

(** One run of [test_endpoint]. *)
Lemma test_endpoint_run endpoint params method data w :
  exists out,
    test_endpoint_at endpoint params method data w
    = (Done tt,
       mkWorld (sent w ++ requests_of_call TOKEN endpoint params method data)
         (printed w ++ banner endpoint method ++ out)).
Proof.
  unfold test_endpoint, requests_of_call.
  fold (query_of TOKEN params).
  unfold bind at 1. cbn [print sent printed].
  unfold bind at 1. cbn [print sent printed].
  unfold bind at 1. cbn [print sent printed].
  unfold try_except_Exception.
  set (w0 := mkWorld (sent w) _).
  assert (Hw0 : printed w0 = (printed w ++ banner endpoint method)%list)
    by (cbn; unfold banner; now rewrite <- !app_assoc).
  assert (Hs0 : sent w0 = sent w) by reflexivity.
  clearbody w0.
  assert (Hdone : forall (o : outcome unit) rqs out,
             exists out',
               (match o with
                | Failed e => print ("Exception: " ++ error_text e)
                                (mkWorld (sent w0 ++ rqs) (printed w0 ++ out))
                | Done u => (Done u, mkWorld (sent w0 ++ rqs) (printed w0 ++ out))
                end)
               = (Done tt, mkWorld (sent w ++ rqs)
                             (printed w ++ banner endpoint method ++ out'))).
  { intros [[]|e] rqs out; rewrite Hw0, Hs0, <- !app_assoc.
    - exists out. reflexivity.
    - exists (out ++ [("Exception: " ++ error_text e)%string])%list.
      unfold print. cbn [sent printed]. now rewrite <- !app_assoc. }
  assert (Hcall : forall rq,
             exists out',
               (let (o, w') :=
                  bind (bind (call (send server rq)) (fun r => pure (Some r)))
                    (fun response =>
                       match response with
                       | None => fail (Raised UnboundLocalError)
                       | Some r =>
                           bind (print ("Status Code: " ++ string_of_Z (status_code r)))
                             (fun _ =>
                                if Z.eqb (status_code r) 200 then
                                  bind (call (response_json r))
                                    (report repr_container pformat)
                                else print ("Error: " ++ response_text r))
                       end) w0 in
                match o with
                | Failed e => print ("Exception: " ++ error_text e) w'
                | Done u => (Done u, w')
                end)
               = (Done tt, mkWorld (sent w ++ [rq])
                             (printed w ++ banner endpoint method ++ out'))).
  { intros rq. unfold bind at 1. unfold bind at 1. unfold call at 1, send.
    destruct (server (sent w0) rq) as [k msg | r]; cbn [pure].
    - destruct (Hdone (Failed (Raised (RequestException k msg))) [rq] [])
        as (out' & H).
      rewrite app_nil_r in H. exists out'. exact H.
    - destruct (silent_after_response r
                  (mkWorld (sent w0 ++ [rq]) (printed w0))) as (o & out & ->).
      cbn [sent printed]. apply (Hdone o [rq] out). }
  destruct (String.eqb method "GET").
  - unfold requests_get. apply Hcall.
  - destruct (String.eqb method "POST").
    + unfold requests_post. apply Hcall.
    + unfold bind, pure, fail.
      destruct (Hdone (Failed (Raised UnboundLocalError)) [] []) as (out' & H).
      rewrite !app_nil_r in H. rewrite app_nil_r. exists out'.
      destruct w0 as [s0 p0]. exact H.
Qed.

(** X10.  [test_endpoint] never raises, whatever the application answers
    and whatever the method: it returns after sending one request when the
    method is GET or POST and none otherwise, and after printing its three
    banner lines and at least one more line; what was sent and printed
    before stays in place. *)
Theorem test_endpoint_never_raises endpoint params method data w :
  exists requests out,
    test_endpoint_at endpoint params method data w
    = (Done tt,
       mkWorld (sent w ++ requests) (printed w ++ banner endpoint method ++ out))
    /\ length requests
       = (if String.eqb method "GET" || String.eqb method "POST" then 1 else 0)%nat.
Proof.
  destruct (test_endpoint_run endpoint params method data w) as (out & H).
  exists (requests_of_call TOKEN endpoint params method data), out.
  split; [exact H|].
  unfold requests_of_call.
  destruct (String.eqb method "GET"); [reflexivity|].
  destruct (String.eqb method "POST"); reflexivity.
Qed.

(** X11.  The request of [test_endpoint] goes to the base address of the
    application followed by the endpoint, and its query always carries the
    script's [institute_url] and [token], also when the caller passed
    parameters of these names; every other parameter of the caller goes
    through unchanged. *)
Theorem test_endpoint_sends_credentials endpoint params method data w :
  method = "GET" \/ method = "POST" ->
  exists rq query,
    sent (snd (test_endpoint_at endpoint params method data w))
    = (sent w ++ [rq])%list
    /\ req_url rq = ("http://localhost:8000/" ++ endpoint)%string
    /\ req_params rq = JObj query
    /\ Py.dict_lookup "institute_url" query
       = Some (JStr "https://uncg.instructure.com")
    /\ Py.dict_lookup "token" query = Some (JStr TOKEN)
    /\ forall key,
         key <> "institute_url" -> key <> "token" ->
         Py.dict_lookup key query
         = Py.dict_lookup key (match params with None => [] | Some given => given end).
Proof.
  intros Hm.
  destruct (test_endpoint_run endpoint params method data w) as (out & ->).
  cbn [snd sent]. unfold requests_of_call, query_of.
  set (given := match params with None => [] | Some g => g end).
  assert (Hq : Py.dict_lookup "institute_url"
                 (dict_setitem "token" (JStr TOKEN)
                    (dict_setitem "institute_url" (JStr INSTITUTE_URL) given))
               = Some (JStr INSTITUTE_URL)).
  { rewrite dict_lookup_setitem_other by discriminate.
    apply dict_lookup_setitem. }
  assert (Ho : forall key,
             key <> "institute_url" -> key <> "token" ->
             Py.dict_lookup key
               (dict_setitem "token" (JStr TOKEN)
                  (dict_setitem "institute_url" (JStr INSTITUTE_URL) given))
             = Py.dict_lookup key given).
  { intros key H1 H2. now rewrite !dict_lookup_setitem_other. }
  destruct Hm as [-> | ->]; cbn [String.eqb Ascii.eqb Bool.eqb];
    eexists; eexists;
    (split; [reflexivity|]); (split; [reflexivity|]); (split; [reflexivity|]);
    (split; [exact Hq|]); (split; [apply dict_lookup_setitem | exact Ho]).
Qed.

(** X12.  With a method that is neither GET nor POST [test_endpoint] sends
    nothing; the unbound [response] raises inside the [try], the handler
    catches it, and the only line after the banner is the exception
    line. *)
Theorem test_endpoint_unknown_method endpoint params method data w :
  method <> "GET" -> method <> "POST" ->
  test_endpoint_at endpoint params method data w
  = (Done tt,
     mkWorld (sent w)
       (printed w ++ banner endpoint method
        ++ [("Exception: " ++ error_text (Raised UnboundLocalError))%string])).
Proof.
  intros G P. apply String.eqb_neq in G, P.
  unfold test_endpoint, try_except_Exception, bind, print, pure, fail, banner.
  rewrite G, P. cbn [sent printed]. now rewrite <- !app_assoc.
Qed.

(** X13.  When the application answers [test_endpoint] with a status other
    than 200, the body is not decoded: the lines after the banner are the
    status and the text of the body. *)
Theorem test_endpoint_reports_bad_status endpoint params method data w rq r :
  requests_of_call TOKEN endpoint params method data = [rq] ->
  server (sent w) rq = Responds r ->
  status_code r <> 200%Z ->
  test_endpoint_at endpoint params method data w
  = (Done tt,
     mkWorld (sent w ++ [rq])
       (printed w ++ banner endpoint method
        ++ [("Status Code: " ++ string_of_Z (status_code r))%string;
            ("Error: " ++ response_text r)%string])).
Proof.
  unfold requests_of_call. intros Hrq Hr Hs. apply Z.eqb_neq in Hs.
  unfold test_endpoint, try_except_Exception. fold (query_of TOKEN params).
  unfold bind at 1. cbn [print sent printed].
  unfold bind at 1. cbn [print sent printed].
  unfold bind at 1. cbn [print sent printed].
  destruct (String.eqb method "GET");
    [ | destruct (String.eqb method "POST"); [ | discriminate Hrq ] ];
    apply (f_equal (fun l => hd rq l)) in Hrq; cbn [hd] in Hrq; subst rq;
    unfold requests_get, requests_post;
    unfold bind at 1; unfold bind at 1; unfold call at 1, send;
    cbn [sent printed]; rewrite Hr; cbn [pure];
    unfold bind at 1; cbn [print sent printed]; rewrite Hs;
    cbn [print sent printed]; unfold banner; now rewrite <- !app_assoc.
Qed.

Local Abbreviation courses_query_at := (courses_query TOKEN).
Local Abbreviation follow_ups_at := (follow_ups repr_container TOKEN).

Lemma first_call_is_courses_query :
  requests_of_call TOKEN "courses" None "GET" JNull = [courses_query_at].
Proof. reflexivity. Qed.

Ltac run_endpoint o :=
  match goal with
  | |- context [test_endpoint _ _ _ _ _ _ ?ep ?p ?m ?d ?w0] =>
      destruct (test_endpoint_run ep p m d w0) as (o & ->);
      cbn [sent printed]
  end.

(** The five calls about one course. *)
Lemma follow_up_calls course w :
  exists out,
    bind (test_endpoint_at ("courses/" ++ py_str repr_container course) None
            "GET" JNull) (fun _ =>
    bind (test_endpoint_at
            ("courses/" ++ py_str repr_container course ++ "/assignments")
            None "GET" JNull) (fun _ =>
    bind (test_endpoint_at
            ("courses/" ++ py_str repr_container course ++ "/modules")
            None "GET" JNull) (fun _ =>
    bind (test_endpoint_at "missing_assignments" None "GET" JNull) (fun _ =>
    test_endpoint_at "generate_study_guide" None "POST"
      (JObj [("course_id", course)]))))) w
    = (Done tt,
       mkWorld (sent w ++ follow_ups_at course) (printed w ++ out)).
Proof.
  unfold follow_ups.
  unfold bind at 1. run_endpoint o1.
  unfold bind at 1. run_endpoint o2.
  unfold bind at 1. run_endpoint o3.
  unfold bind at 1. run_endpoint o4.
  run_endpoint o5.
  rewrite <- !app_assoc. eexists. reflexivity.
Qed.

(** One run of [run_tests]. *)
Lemma run_tests_run w :
  exists o requests out,
    run_tests_at w
    = (o, mkWorld (sent w ++ courses_query_at :: courses_query_at :: requests)
            (printed w ++ out))
    /\ (requests = []
        \/ o = Done tt /\ exists course, requests = follow_ups_at course)
    /\ (o = Done tt -> exists before, out = (before ++ [(nl ++ "Tests completed!")%string])%list).
Proof.
  unfold run_tests.
  unfold bind at 1. cbn [print sent printed].
  unfold bind at 1. cbn [print sent printed].
  unfold bind at 1.
  run_endpoint o1.
  rewrite first_call_is_courses_query.
  unfold bind at 1. unfold requests_get, call at 1, send. cbn [sent printed].
  fold courses_query_at.
  set (h1 := (sent w ++ [courses_query_at])%list).
  set (p1 := (_ ++ banner "courses" "GET" ++ o1)%list).
  assert (Hsent : forall l, ((h1 ++ [courses_query_at]) ++ l)%list
                            = (sent w ++ courses_query_at :: courses_query_at :: l)%list).
  { intros l. unfold h1. now rewrite <- !app_assoc. }
  assert (Hp1 : exists o0, p1 = (printed w ++ o0)%list).
  { unfold p1. rewrite <- !app_assoc. eexists. reflexivity. }
  destruct Hp1 as (o0 & Hp1). clearbody p1. subst p1.
  assert (Hstop : forall e,
             exists o requests out,
               (@Failed unit e,
                mkWorld (h1 ++ [courses_query_at]) (printed w ++ o0))
               = (o, mkWorld (sent w ++ courses_query_at :: courses_query_at :: requests)
                       (printed w ++ out))
               /\ (requests = []
                   \/ o = Done tt /\ exists course, requests = follow_ups_at course)
               /\ (o = Done tt ->
                   exists before, out = (before ++ [(nl ++ "Tests completed!")%string])%list)).
  { intros e. exists (Failed e), [], o0.
    rewrite <- (Hsent []), app_nil_r.
    split; [reflexivity|]. split; [now left | discriminate]. }
  assert (Hend : forall requests extra,
             requests = [] \/ (exists course, requests = follow_ups_at course) ->
             exists o requests' out,
               print (nl ++ "Tests completed!")
                 (mkWorld ((h1 ++ [courses_query_at]) ++ requests)
                    ((printed w ++ o0) ++ extra))
               = (o, mkWorld (sent w ++ courses_query_at :: courses_query_at :: requests')
                       (printed w ++ out))
               /\ (requests' = []
                   \/ o = Done tt /\ exists course, requests' = follow_ups_at course)
               /\ (o = Done tt ->
                   exists before, out = (before ++ [(nl ++ "Tests completed!")%string])%list)).
  { intros requests extra Hreq.
    exists (Done tt), requests,
      ((o0 ++ extra) ++ [(nl ++ "Tests completed!")%string])%list.
    split; [|split].
    - unfold print. cbn [sent printed]. rewrite Hsent.
      rewrite <- (app_assoc (printed w)), <- (app_assoc (printed w)).
      reflexivity.
    - destruct Hreq as [-> | Hc]; [left; reflexivity | right; split; [reflexivity | exact Hc]].
    - intros _. exists (o0 ++ extra)%list. reflexivity. }
  assert (Hend0 : exists o requests' out,
             print (nl ++ "Tests completed!")
               (mkWorld (h1 ++ [courses_query_at]) (printed w ++ o0))
             = (o, mkWorld (sent w ++ courses_query_at :: courses_query_at :: requests')
                     (printed w ++ out))
             /\ (requests' = []
                 \/ o = Done tt /\ exists course, requests' = follow_ups_at course)
             /\ (o = Done tt ->
                 exists before, out = (before ++ [(nl ++ "Tests completed!")%string])%list)).
  { destruct (Hend [] [] (or_introl eq_refl)) as (o & rs & out & H).
    rewrite !app_nil_r in H. eauto. }
  destruct (server h1 courses_query_at) as [k msg | response];
    [apply Hstop|].
  unfold bind at 1.
  destruct (Z.eqb (status_code response) 200);
    [|unfold bind, pure; exact Hend0].
  unfold bind at 1. unfold call at 1, response_json.
  destruct (resp_json response) as [msg | body];
    cbn [raise ret sent printed]; [apply Hstop|].
  unfold bind at 1.
  destruct (Py.subscript body "success") as [ok|e];
    cbn [eval pure fail]; [|apply Hstop].
  destruct (Py.truthy ok);
    [|unfold bind, pure; exact Hend0].
  unfold bind at 1. unfold bind at 1. unfold call at 1.
  cbn [raise ret sent printed].
  unfold bind at 1.
  destruct (Py.subscript body "data") as [courses|e];
    cbn [eval pure fail]; [|apply Hstop].
  destruct (Py.truthy courses); [|cbn [pure]; exact Hend0].
  unfold bind at 1.
  destruct (item0 courses) as [first|e]; [|apply Hstop].
  unfold bind at 1.
  destruct (Py.subscript first "id") as [course|e];
    cbn [eval pure fail]; [|apply Hstop].
  destruct (follow_up_calls course
              (mkWorld (h1 ++ [courses_query_at]) (printed w ++ o0)))
    as (out & ->).
  cbn [sent printed]. apply Hend. right. eauto.
Qed.

(** X14.  Every run of [run_tests] asks the application for the course
    list twice, with one and the same request, and then sends either
    nothing more or the five requests about one course; it sends the five
    only on a run that returns.  A run that returns has printed the
    completion line last. *)
Theorem run_tests_sends_two_or_seven w :
  exists o requests out,
    run_tests_at w
    = (o, mkWorld (sent w ++ courses_query_at :: courses_query_at :: requests)
            (printed w ++ out))
    /\ (requests = []
        \/ o = Done tt
           /\ exists course,
                requests = follow_ups_at course /\ length requests = 5%nat)
    /\ (o = Done tt ->
        exists before, out = (before ++ [(nl ++ "Tests completed!")%string])%list).
Proof.
  destruct (run_tests_run w) as (o & requests & out & Hrun & Hreq & Hout).
  exists o, requests, out. split; [exact Hrun|]. split; [|exact Hout].
  destruct Hreq as [H | (Ho & course & H)]; [now left | right].
  split; [exact Ho|]. exists course. split; [exact H|]. now subst.
Qed.

(** X15.  The second course-list request is sent outside any [try]: when
    the HTTP library raises on it, [run_tests] raises the same exception
    after its two requests, although [test_endpoint] has come through the
    first one. *)
Theorem run_tests_raises_when_unreachable w k msg :
  server (sent w ++ [courses_query_at]) courses_query_at = Fails k msg ->
  exists out,
    run_tests_at w
    = (Failed (Raised (RequestException k msg)),
       mkWorld (sent w ++ [courses_query_at; courses_query_at])
         (printed w
          ++ [(nl ++ "Starting Canvas API Tests")%string; times 25 "-"]
          ++ banner "courses" "GET" ++ out)).
Proof.
  intros Hdown.
  unfold run_tests.
  unfold bind at 1. cbn [print sent printed].
  unfold bind at 1. cbn [print sent printed].
  unfold bind at 1. run_endpoint o1.
  rewrite first_call_is_courses_query.
  unfold bind at 1. unfold requests_get, call at 1, send. cbn [sent printed].
  fold courses_query_at. rewrite Hdown.
  exists o1. rewrite <- !app_assoc. reflexivity.
Qed.

(** X16.  When the second course-list answer is a 200 whose body has a
    true [success] and a non-empty list as [data], and the first course of
    the list has an [id], [run_tests] returns after seven requests: the
    five that follow are built from the id of that first course alone, the
    last one being a POST whose JSON body is that id under [course_id]. *)
Theorem run_tests_exercises_first_course w r body ok first others course :
  server (sent w ++ [courses_query_at]) courses_query_at = Responds r ->
  status_code r = 200%Z ->
  resp_json r = inr body ->
  Py.subscript body "success" = Return ok ->
  Py.truthy ok = true ->
  Py.subscript body "data" = Return (JList (first :: others)) ->
  Py.subscript first "id" = Return course ->
  exists out,
    run_tests_at w
    = (Done tt,
       mkWorld
         (sent w ++ courses_query_at :: courses_query_at :: follow_ups_at course)
         (printed w ++ out))
    /\ last (follow_ups_at course) courses_query_at
       = mkRequest POST "http://localhost:8000/generate_study_guide" []
           (JObj [("institute_url", JStr "https://uncg.instructure.com");
                  ("token", JStr TOKEN)])
           (JObj [("course_id", course)]).
Proof.
  intros Hr Hs Hj Hok Ht Hd Hid.
  unfold run_tests.
  unfold bind at 1. cbn [print sent printed].
  unfold bind at 1. cbn [print sent printed].
  unfold bind at 1. run_endpoint o1.
  rewrite first_call_is_courses_query.
  unfold bind at 1. unfold requests_get, call at 1, send. cbn [sent printed].
  fold courses_query_at. rewrite Hr.
  unfold bind at 1. rewrite Hs. cbn [Z.eqb Pos.eqb].
  unfold bind at 1. unfold call at 1, response_json. rewrite Hj.
  cbn [ret sent printed].
  unfold bind at 1. rewrite Hok. cbn [eval pure]. rewrite Ht.
  unfold bind at 1. unfold bind at 1. unfold call at 1.
  cbn [ret sent printed].
  unfold bind at 1. rewrite Hd. cbn [eval pure Py.truthy item0].
  unfold bind at 1. unfold bind at 1. rewrite Hid. cbn [eval pure].
  destruct (follow_up_calls course (mkWorld _ _)) as (out & ->)
    || match goal with
       | |- context [bind (test_endpoint _ _ _ _ _ _ _ _ _ _) _ ?w0] =>
           destruct (follow_up_calls course w0) as (out & ->)
       end.
  unfold print. cbn [sent printed].
  eexists. split; [|reflexivity].
  rewrite <- !app_assoc. reflexivity.
Qed.

End ScriptProperties.

Import ScriptScenario.

Lemma test_endpoint_sends_credentials_witness :
  exists rq query,
    sent (snd (test_endpoint app_up Scenario.no_repr plain_value plain_body
                 plain_error "secret" "courses"
                 (Some [("token", JStr "mine"); ("page", JInt 2)]) "GET" JNull
                 start))
    = (sent start ++ [rq])%list
    /\ req_url rq = ("http://localhost:8000/" ++ "courses")%string
    /\ req_params rq = JObj query
    /\ Py.dict_lookup "institute_url" query
       = Some (JStr "https://uncg.instructure.com")
    /\ Py.dict_lookup "token" query = Some (JStr "secret")
    /\ forall key,
         key <> "institute_url" -> key <> "token" ->
         Py.dict_lookup key query
         = Py.dict_lookup key [("token", JStr "mine"); ("page", JInt 2)].
Proof.
  apply (test_endpoint_sends_credentials app_up Scenario.no_repr plain_value
           plain_body plain_error "secret" "courses"
           (Some [("token", JStr "mine"); ("page", JInt 2)]) "GET" JNull start).
  left. reflexivity.
Defined.

Lemma test_endpoint_unknown_method_witness :
  test_endpoint app_up Scenario.no_repr plain_value plain_body plain_error
    "secret" "courses" None "DELETE" JNull start
  = (Done tt,
     mkWorld (sent start)
       (printed start ++ banner "courses" "DELETE"
        ++ [("Exception: " ++ plain_error (Raised UnboundLocalError))%string])).
Proof.
  apply (test_endpoint_unknown_method app_up Scenario.no_repr plain_value
           plain_body plain_error "secret" "courses" None "DELETE" JNull start);
    discriminate.
Defined.

Lemma test_endpoint_reports_bad_status_witness :
  test_endpoint app_broken Scenario.no_repr plain_value plain_body plain_error
    "secret" "courses" None "GET" JNull start
  = (Done tt,
     mkWorld (sent start ++ [courses_query "secret"])
       (printed start ++ banner "courses" "GET"
        ++ [("Status Code: " ++ string_of_Z 500)%string;
            ("Error: " ++ "")%string])).
Proof.
  apply (test_endpoint_reports_bad_status app_broken Scenario.no_repr
           plain_value plain_body plain_error "secret" "courses" None "GET"
           JNull start (courses_query "secret")
           (mkResponse 500 "Internal Server Error"
              "http://localhost:8000/courses" (inl "no body")));
    [reflexivity | reflexivity | discriminate].
Defined.

Lemma run_tests_sends_two_or_seven_witness :
  exists o requests out,
    run_tests app_up Scenario.no_repr plain_value plain_body plain_error
      "secret" start
    = (o, mkWorld
            (sent start ++ courses_query "secret" :: courses_query "secret"
                           :: requests)
            (printed start ++ out))
    /\ (requests = []
        \/ o = Done tt
           /\ exists course,
                requests = follow_ups Scenario.no_repr "secret" course
                /\ length requests = 5%nat)
    /\ (o = Done tt ->
        exists before, out = (before ++ [(nl ++ "Tests completed!")%string])%list).
Proof.
  exact (run_tests_sends_two_or_seven app_up Scenario.no_repr plain_value
           plain_body plain_error "secret" start).
Defined.

Lemma run_tests_raises_when_unreachable_witness :
  exists out,
    run_tests app_down Scenario.no_repr plain_value plain_body plain_error
      "secret" start
    = (Failed (Raised (RequestException ConnectionError "connection refused")),
       mkWorld (sent start ++ [courses_query "secret"; courses_query "secret"])
         (printed start
          ++ [(nl ++ "Starting Canvas API Tests")%string; times 25 "-"]
          ++ banner "courses" "GET" ++ out)).
Proof.
  apply (run_tests_raises_when_unreachable app_down Scenario.no_repr
           plain_value plain_body plain_error "secret" start).
  reflexivity.
Defined.

Lemma run_tests_exercises_first_course_witness :
  exists out,
    run_tests app_up Scenario.no_repr plain_value plain_body plain_error
      "secret" start
    = (Done tt,
       mkWorld
         (sent start ++ courses_query "secret" :: courses_query "secret"
                        :: follow_ups Scenario.no_repr "secret" (JInt 7))
         (printed start ++ out))
    /\ last (follow_ups Scenario.no_repr "secret" (JInt 7))
         (courses_query "secret")
       = mkRequest POST "http://localhost:8000/generate_study_guide" []
           (JObj [("institute_url", JStr "https://uncg.instructure.com");
                  ("token", JStr "secret")])
           (JObj [("course_id", JInt 7)]).
Proof.
  apply (run_tests_exercises_first_course app_up Scenario.no_repr plain_value
           plain_body plain_error "secret" start
           (mkResponse 200 "OK" "http://localhost:8000/courses"
              (inr (JObj [("success", JBool true);
                          ("data", JList [JObj [("id", JInt 7)];
                                          JObj [("id", JInt 8)]]);
                          ("error", JNull)])))
           (JObj [("success", JBool true);
                  ("data", JList [JObj [("id", JInt 7)]; JObj [("id", JInt 8)]]);
                  ("error", JNull)])
           (JBool true) (JObj [("id", JInt 7)]) [JObj [("id", JInt 8)]] (JInt 7));
    reflexivity.
Defined.

End TestApiProperties.

(** * Shape errors in the Aggregator *)

Section AggregatorErrors.

Variable upstream : list request -> request -> transport.
Variable repr_container : json -> string.
Variables institute_url token : string.

Local Abbreviation courses_call :=
  (gateway upstream institute_url token "courses" courses_params).
Local Abbreviation first_request := (courses_request institute_url token).
Local Abbreviation run :=
  (get_missing_assignments upstream repr_container institute_url token).
Local Abbreviation loop :=
  (each_course upstream repr_container institute_url token).

(** One turn of the loop, whatever the course. *)
Lemma each_course_step c rest acc h :
  loop (c :: rest) acc h
  = match Py.subscript c "id" with
    | Raise e => (Raise e, h)
    | Return cid =>
        let endpoint := "courses/" ++ py_str repr_container cid ++ "/assignments" in
        let env := gateway upstream institute_url token endpoint
                     assignments_params h in
        let h' := (h ++ [issued_request institute_url token endpoint GET
                           assignments_params JNull])%list in
        if success env then
          match Py.iterate (data env) with
          | Return items =>
              match filter_missing c items acc with
              | Return acc' => loop rest acc' h'
              | Raise e => (Raise e, h')
              end
          | Raise e => (Raise e, h')
          end
        else loop rest acc h'
    end.
Proof.
  cbn [each_course]. unfold mbind at 1. unfold lift at 1.
  destruct (Py.subscript c "id") as [cid|e]; [|reflexivity].
  unfold mbind at 1. rewrite gateway_call. cbn zeta.
  destruct (success (gateway upstream institute_url token _ _ h));
    cbn [negb]; [|reflexivity].
  unfold mbind at 1. unfold lift at 1.
  destruct (Py.iterate _) as [l|e]; [|reflexivity].
  unfold mbind at 1. unfold lift at 1.
  destruct (filter_missing c l acc); reflexivity.
Qed.

(** The loop over a list in two parts. *)
Lemma each_course_app pre rest :
  forall acc h,
    loop (pre ++ rest) acc h
    = match loop pre acc h with
      | (Return acc', h') => loop rest acc' h'
      | (Raise e, h') => (Raise e, h')
      end.
Proof.
  induction pre as [|c pre IH]; intros acc h; [reflexivity|].
  cbn [app]. rewrite !each_course_step.
  destruct (Py.subscript c "id") as [cid|e]; [|reflexivity].
  cbn zeta.
  destruct (success (gateway upstream institute_url token _ _ h)); [|apply IH].
  destruct (Py.iterate _) as [l|e]; [|reflexivity].
  destruct (filter_missing c l acc) as [acc'|e]; [apply IH | reflexivity].
Qed.

(** One turn of the loop sends at most the request of its course. *)
Lemma turn_requests c acc h o h' :
  loop [c] acc h = (o, h') ->
  h' = h \/ exists rq, h' = (h ++ [rq])%list.
Proof.
  destruct (each_course_requests upstream repr_container institute_url token
              [c] acc h) as (sent & Hs & _ & Hlen).
  intros H. rewrite H in Hs. cbn [snd] in Hs. subst h'.
  destruct sent as [|rq [|rq' more]]; cbn in Hlen.
  - left. now rewrite app_nil_r.
  - right. eauto.
  - exfalso. inversion Hlen as [|? Hle]. inversion Hle.
Qed.

(** X17.  A shape error is not tolerated the way a failed call is.  When
    the turn of one course raises (no [id], a payload that cannot be
    iterated, a [submission] that is no object, a missing field of a
    record), the whole run raises that exception: the records of the
    courses before it are lost and no course after it is called. *)
Theorem shape_error_aborts_the_run h pre bad post acc h2 e h3 :
  success (courses_call h) = true ->
  data (courses_call h) = JList (pre ++ bad :: post) ->
  each_course upstream repr_container institute_url token pre []
    (h ++ [courses_request institute_url token])%list
  = (Return acc, h2) ->
  each_course upstream repr_container institute_url token [bad] acc h2
  = (Raise e, h3) ->
  get_missing_assignments upstream repr_container institute_url token h
  = (Raise e, h3)
  /\ (h3 = h2 \/ exists rq, h3 = (h2 ++ [rq])%list).
Proof.
  intros Hok Hdata Hpre Hbad. split; [|apply (turn_requests _ _ _ _ _ Hbad)].
  unfold get_missing_assignments. unfold mbind at 1.
  rewrite gateway_call. fold first_request. rewrite Hok. cbn [negb].
  unfold mbind at 1. unfold lift at 1. rewrite Hdata. cbn [Py.iterate].
  unfold mbind at 1.
  rewrite each_course_app, Hpre.
  change (bad :: post) with ([bad] ++ post)%list.
  rewrite each_course_app, Hbad. reflexivity.
Qed.

End AggregatorErrors.

Lemma shape_error_aborts_the_run_witness :
  get_missing_assignments ShapeScenario.null_submission no_repr institute token []
  = (Raise AttributeError,
     [courses_request institute token;
      assignments_request no_repr institute token math;
      assignments_request no_repr institute token art])
  /\ ([courses_request institute token;
       assignments_request no_repr institute token math;
       assignments_request no_repr institute token art]
      = [courses_request institute token;
         assignments_request no_repr institute token math]
      \/ exists rq,
           [courses_request institute token;
            assignments_request no_repr institute token math;
            assignments_request no_repr institute token art]
           = ([courses_request institute token;
               assignments_request no_repr institute token math] ++ [rq])%list).
Proof.
  apply (shape_error_aborts_the_run ShapeScenario.null_submission no_repr
           institute token [] [math] art [bio] [record_of math hw1]);
    reflexivity.
Defined.
